(** * opengate: the generic particle source (sources/generic.py)

    A shallow embedding of [GenericSource]: the particle setter hook, the
    validation performed by [initialize], [update_tac_activity] and
    [can_predict_number_of_events], followed by the properties of the
    specification that concern them.

    Conventions.
    - Python numbers ([n], [activity], [half_life], energies, times) are
      rationals [Q]; the code only compares them with [0], assigns them and
      scales by a unit, so no rounding is involved.  [x == 0] of Python is
      [Qeq], [x > 0] is [Qlt].
    - Python [str] is [string] (ASCII).
    - A Python object that is mutated in place is a record threaded through
      the functions; a call that does not return normally is a [result]
      other than [Ok]. *)

From Stdlib Require Import List String Ascii Bool ZArith QArith Lia.
From Stdlib Require Import DecimalString DecimalNat.
Import ListNotations.

Local Open Scope string_scope.
Local Open Scope Q_scope.

(** ** Outcomes of a call *)

(** The messages passed to [fatal], by the place that raises them; the
    f-string arguments that name the offending value and the source are kept
    as constructor arguments. *)
Inductive FatalMsg : Type :=
| ParticleNotStr
| PositionNotBox
| DirectionNotBox
| EnergyNotBox
| UnknownEnergyType (energy_type source_name : string)
| UnknownSpectrumType (spectrum_type source_name : string)
| TacSizeMismatch (source_name : string)
| HistogramLengthMismatch (source_name : string)
| UnknownDirectionType (direction_type source_name : string)
| BothNAndActivity
| NeitherNNorActivity.

(** The messages passed to [warning]. *)
Inductive WarningMsg : Type :=
| ConfineWithPoint (source_name : string).

(** Built-in exceptions the modelled code can raise by itself. *)
Inductive PyExn : Type :=
| TypeError
| IndexError
| ValueError
| AttributeError.

(** Modelled from the spec: [fatal] comes from opengate/exception.py, which
    is not available.  The spec (section 7) makes a fatal error abort before
    anything else happens: [fatal] never returns to its caller.  [Fatal m] is
    that abort, [Raised e] an uncaught built-in exception. *)
Inductive result (A : Type) : Type :=
| Ok (a : A)
| Fatal (m : FatalMsg)
| Raised (e : PyExn).

Arguments Ok {A} a.
Arguments Fatal {A} m.
Arguments Raised {A} e.

Definition bind {A B : Type} (r : result A) (k : A -> result B) : result B :=
  match r with
  | Ok a => k a
  | Fatal m => Fatal m
  | Raised e => Raised e
  end.

Notation "x <- c ;; k" := (bind c (fun x => k))
  (at level 61, c at next level, right associativity).

Definition is_fatal {A : Type} (r : result A) : Prop :=
  exists m, r = Fatal m.

Definition is_ok {A : Type} (r : result A) : Prop :=
  exists a, r = Ok a.

(** ** Python values and string primitives *)

(** A value of one of the Python types that reach the modelled code. *)
Inductive PyVal : Type :=
| PyInt (z : Z)
| PyStr (s : string)
| PyNone.

(** An attribute that the user may have replaced by something that is not a
    [Box]. *)
Inductive PyObj (A : Type) : Type :=
| IsBox (b : A)
| NotBox (v : PyVal).

Arguments IsBox {A} b.
Arguments NotBox {A} v.

(** [x in l] for a list of strings. *)
Definition str_in (x : string) (l : list string) : bool :=
  existsb (String.eqb x) l.

(** [s.startswith(p)]. *)
Definition startswith (s p : string) : bool := String.prefix p s.

(** [s.split(sep)] for a one-character separator: every occurrence cuts, so
    the result has one more element than there are separators. *)
Fixpoint split (sep : ascii) (s : string) : list string :=
  match s with
  | EmptyString => [EmptyString]
  | String c rest =>
      if Ascii.eqb c sep then EmptyString :: split sep rest
      else match split sep rest with
           | w :: ws => String c w :: ws
           | [] => [String c EmptyString]
           end
  end.

(** [l[i]] as used for [words[1]], [words[2]], [words[3]] behind a length
    test. *)
Definition word_at (words : list string) (i : nat) : string :=
  nth i words EmptyString.

(** Whitespace stripped by [int] around its argument: the characters 9 to
    13 and the space. *)
Definition is_space (c : ascii) : bool :=
  let k := nat_of_ascii c in
  ((9 <=? k) && (k <=? 13) || (k =? 32))%nat.

Definition digit_of (c : ascii) : option Z :=
  let k := nat_of_ascii c in
  if ((48 <=? k) && (k <=? 57))%nat then Some (Z.of_nat (k - 48)) else None.

Fixpoint lstrip (s : string) : string :=
  match s with
  | String c rest => if is_space c then lstrip rest else s
  | EmptyString => EmptyString
  end.

Fixpoint string_rev_onto (s acc : string) : string :=
  match s with
  | EmptyString => acc
  | String c rest => string_rev_onto rest (String c acc)
  end.

Definition string_rev (s : string) : string := string_rev_onto s EmptyString.

Definition strip (s : string) : string :=
  string_rev (lstrip (string_rev (lstrip s))).

(** The digits of a base-10 literal: a digit, then digits each optionally
    preceded by a single underscore.  [after_digit] tells whether the
    previous character was a digit (an underscore is allowed only there, and
    the literal may end only there). *)
Fixpoint digits_value (s : string) (acc : Z) (after_digit : bool) : option Z :=
  match s with
  | EmptyString => if after_digit then Some acc else None
  | String c rest =>
      match digit_of c with
      | Some d => digits_value rest (10 * acc + d)%Z true
      | None =>
          if Ascii.eqb c "_"%char && after_digit then
            match rest with
            | String c' _ =>
                match digit_of c' with
                | Some _ => digits_value rest acc false
                | None => None
                end
            | EmptyString => None
            end
          else None
      end
  end.

(** The number of digits of a literal, underscores not counted. *)
Fixpoint count_digits (s : string) : nat :=
  match s with
  | EmptyString => 0%nat
  | String c rest =>
      match digit_of c with
      | Some _ => S (count_digits rest)
      | None => count_digits rest
      end
  end.

(** An optional sign in front of the digits. *)
Definition split_sign (body : string) : bool * string :=
  match body with
  | String "-"%char rest => (true, rest)
  | String "+"%char rest => (false, rest)
  | _ => (false, body)
  end.

(** The default of [sys.int_max_str_digits]: [int] refuses a string with
    more digits. *)
Definition int_max_str_digits : nat := 4300.

(** [int(s)] for a string, base 10: surrounding whitespace, an optional
    sign, then at most [int_max_str_digits] digits; anything else is a
    [ValueError]. *)
Definition int_of_str (s : string) : result Z :=
  let '(neg, ds) := split_sign (strip s) in
  match digits_value ds 0%Z false with
  | Some v =>
      if (int_max_str_digits <? count_digits ds)%nat then Raised ValueError
      else Ok (if neg then (- v)%Z else v)
  | None => Raised ValueError
  end.

(** [l[0]]. *)
Definition first {A : Type} (l : list A) : result A :=
  match l with
  | x :: _ => Ok x
  | [] => Raised IndexError
  end.

(** [len(x)] where [x] may be [None]. *)
Definition len {A : Type} (x : option (list A)) : result nat :=
  match x with
  | Some l => Ok (List.length l)
  | None => Raised TypeError
  end.

(** Comparisons of Python numbers with a boolean result. *)
Definition Qgtb (x y : Q) : bool := negb (Qle_bool x y).

Notation "x >? y" := (Qgtb x y) (at level 70, no associativity) : Q_scope.
Notation "x <? y" := (Qgtb y x) (at level 70, no associativity) : Q_scope.
Notation "x =? y" := (Qeq_bool x y) (at level 70, no associativity) : Q_scope.

(** ** The user info of a generic source *)

(** Each [Box] of the user info is a record with the keys that the modelled
    code reads or writes; the remaining keys of the defaults (sizes, angles,
    rotation matrices) are never looked at by it. *)

Module Ion.
(** [Box({"Z": 0, "A": 0, "E": 0})]: the setter hook stores integers, the
    constructor stores the words themselves. *)
Record t : Type := mk { Z : PyVal; A : PyVal; E : PyVal }.

Definition default : t := mk (PyInt 0) (PyInt 0) (PyInt 0).

Definition set_Z (v : PyVal) (i : t) : t := mk v (A i) (E i).
Definition set_A (v : PyVal) (i : t) : t := mk (Z i) v (E i).
Definition set_E (v : PyVal) (i : t) : t := mk (Z i) (A i) v.
End Ion.

Module Position.
Record t : Type := mk { type : string; confine : option string }.

(** [_generic_source_default_position]. *)
Definition default : t := mk "point" None.
End Position.

Module AcceptanceAngle.
Record t : Type := mk {
  skip_policy : string;
  volumes : list string;
  intersection_flag : bool;
  normal_flag : bool
}.

(** [_generic_source_default_aa]. *)
Definition default : t := mk "SkipEvents" [] false false.
End AcceptanceAngle.

Module Direction.
Record t : Type := mk { type : string; acceptance_angle : AcceptanceAngle.t }.

(** [_generic_source_default_direction]. *)
Definition default : t := mk "iso" AcceptanceAngle.default.
End Direction.

Module Energy.
(** [histogram_weight] and [histogram_energy] are not among the default
    keys: they exist once the user has set them. *)
Record t : Type := mk {
  type : string;
  mono : Q;
  sigma_gauss : Q;
  is_cdf : bool;
  min_energy : option Q;
  max_energy : option Q;
  spectrum_type : option string;
  histogram_weight : option (list Q);
  histogram_energy : option (list Q)
}.

(** [_generic_source_default_energy]. *)
Definition default : t := mk "mono" 0 0 false None None None None None.

Definition set_type (v : string) (e : t) : t :=
  mk v (mono e) (sigma_gauss e) (is_cdf e) (min_energy e) (max_energy e)
     (spectrum_type e) (histogram_weight e) (histogram_energy e).
Definition set_mono (v : Q) (e : t) : t :=
  mk (type e) v (sigma_gauss e) (is_cdf e) (min_energy e) (max_energy e)
     (spectrum_type e) (histogram_weight e) (histogram_energy e).
Definition set_is_cdf (v : bool) (e : t) : t :=
  mk (type e) (mono e) (sigma_gauss e) v (min_energy e) (max_energy e)
     (spectrum_type e) (histogram_weight e) (histogram_energy e).
End Energy.

(** The source object: the user info declared by [GenericSource], the user
    info it inherits from [SourceBase] ([name], [n], [activity], [half_life],
    [start_time]), what has been handed to the Geant4 object through
    [SetEnergyCDF], [SetProbabilityCDF] and [SetTAC], and the warnings issued
    so far. *)
Record Source : Type := mkSource {
  name : string;
  particle : string;
  ion : Ion.t;
  user_particle_life_time : Q;
  tac_times : option (list Q);
  tac_activities : option (list Q);
  position : PyObj Position.t;
  direction : PyObj Direction.t;
  energy : PyObj Energy.t;
  n : Q;
  activity : Q;
  half_life : Q;
  start_time : option Q;
  g4_energy_cdf : option (list Q);
  g4_probability_cdf : option (list Q);
  g4_tac : option (list Q * list Q);
  warnings : list WarningMsg
}.

Definition set_particle (v : string) (s : Source) : Source :=
  mkSource (name s) v (ion s) (user_particle_life_time s) (tac_times s)
    (tac_activities s) (position s) (direction s) (energy s) (n s)
    (activity s) (half_life s) (start_time s) (g4_energy_cdf s)
    (g4_probability_cdf s) (g4_tac s) (warnings s).

Definition set_ion (v : Ion.t) (s : Source) : Source :=
  mkSource (name s) (particle s) v (user_particle_life_time s) (tac_times s)
    (tac_activities s) (position s) (direction s) (energy s) (n s)
    (activity s) (half_life s) (start_time s) (g4_energy_cdf s)
    (g4_probability_cdf s) (g4_tac s) (warnings s).

Definition set_user_particle_life_time (v : Q) (s : Source) : Source :=
  mkSource (name s) (particle s) (ion s) v (tac_times s)
    (tac_activities s) (position s) (direction s) (energy s) (n s)
    (activity s) (half_life s) (start_time s) (g4_energy_cdf s)
    (g4_probability_cdf s) (g4_tac s) (warnings s).

Definition set_energy (v : PyObj Energy.t) (s : Source) : Source :=
  mkSource (name s) (particle s) (ion s) (user_particle_life_time s)
    (tac_times s) (tac_activities s) (position s) (direction s) v (n s)
    (activity s) (half_life s) (start_time s) (g4_energy_cdf s)
    (g4_probability_cdf s) (g4_tac s) (warnings s).

Definition set_n (v : Q) (s : Source) : Source :=
  mkSource (name s) (particle s) (ion s) (user_particle_life_time s)
    (tac_times s) (tac_activities s) (position s) (direction s) (energy s) v
    (activity s) (half_life s) (start_time s) (g4_energy_cdf s)
    (g4_probability_cdf s) (g4_tac s) (warnings s).

Definition set_activity (v : Q) (s : Source) : Source :=
  mkSource (name s) (particle s) (ion s) (user_particle_life_time s)
    (tac_times s) (tac_activities s) (position s) (direction s) (energy s)
    (n s) v (half_life s) (start_time s) (g4_energy_cdf s)
    (g4_probability_cdf s) (g4_tac s) (warnings s).

Definition set_start_time (v : option Q) (s : Source) : Source :=
  mkSource (name s) (particle s) (ion s) (user_particle_life_time s)
    (tac_times s) (tac_activities s) (position s) (direction s) (energy s)
    (n s) (activity s) (half_life s) v (g4_energy_cdf s)
    (g4_probability_cdf s) (g4_tac s) (warnings s).

(** [self.SetEnergyCDF(ene)]. *)
Definition SetEnergyCDF (ene : list Q) (s : Source) : Source :=
  mkSource (name s) (particle s) (ion s) (user_particle_life_time s)
    (tac_times s) (tac_activities s) (position s) (direction s) (energy s)
    (n s) (activity s) (half_life s) (start_time s) (Some ene)
    (g4_probability_cdf s) (g4_tac s) (warnings s).

(** [self.SetProbabilityCDF(cdf)]. *)
Definition SetProbabilityCDF (cdf : list Q) (s : Source) : Source :=
  mkSource (name s) (particle s) (ion s) (user_particle_life_time s)
    (tac_times s) (tac_activities s) (position s) (direction s) (energy s)
    (n s) (activity s) (half_life s) (start_time s) (g4_energy_cdf s)
    (Some cdf) (g4_tac s) (warnings s).

(** [self.SetTAC(times, activities)]. *)
Definition SetTAC (times activities : list Q) (s : Source) : Source :=
  mkSource (name s) (particle s) (ion s) (user_particle_life_time s)
    (tac_times s) (tac_activities s) (position s) (direction s) (energy s)
    (n s) (activity s) (half_life s) (start_time s) (g4_energy_cdf s)
    (g4_probability_cdf s) (Some (times, activities)) (warnings s).

(** [warning(...)]: logged, and the caller goes on. *)
Definition warning (w : WarningMsg) (s : Source) : Source :=
  mkSource (name s) (particle s) (ion s) (user_particle_life_time s)
    (tac_times s) (tac_activities s) (position s) (direction s) (energy s)
    (n s) (activity s) (half_life s) (start_time s) (g4_energy_cdf s)
    (g4_probability_cdf s) (g4_tac s) (warnings s ++ [w]).

(** Reading [self.energy.<key>]: an attribute of a [Box], an
    [AttributeError] on anything else. *)
Definition energy_box (s : Source) : result Energy.t :=
  match energy s with
  | IsBox e => Ok e
  | NotBox _ => Raised AttributeError
  end.

Definition direction_box (s : Source) : result Direction.t :=
  match direction s with
  | IsBox d => Ok d
  | NotBox _ => Raised AttributeError
  end.

Definition position_box (s : Source) : result Position.t :=
  match position s with
  | IsBox p => Ok p
  | NotBox _ => Raised AttributeError
  end.

(** Reading a key that a [Box] may lack. *)
Definition key {A : Type} (x : option A) : result A :=
  match x with
  | Some a => Ok a
  | None => Raised AttributeError
  end.

(** The simulation's run timing intervals, [[start, end]] pairs. *)
Definition RunTimingIntervals : Type := list (Q * Q).

(** ** What generic.py imports *)

(** The names that generic.py takes from modules that are not part of the
    development: the unit [g4_units.keV], the list
    [all_beta_plus_radionuclides], the functions [read_beta_plus_spectra]
    (rows of energy in keV and probability) and
    [compute_cdf_and_total_yield], and the inherited
    [SourceBase.initialize]. *)
Record Imports : Type := mkImports {
  keV : Q;
  all_beta_plus_radionuclides : list string;
  read_beta_plus_spectra : string -> list (Q * Q);
  compute_cdf_and_total_yield : list Q -> list Q -> list Q * Q;
  SourceBase_initialize : Source -> RunTimingIntervals -> result Source
}.

(** ** The particle setter hook and the constructor *)

(** [_setter_hook_generic_source_particle(self, particle)]: returns the
    (possibly updated) source and the value to store. *)
Definition _setter_hook_generic_source_particle
    (self : Source) (particle : PyVal) : result (Source * string) :=
  match particle with
  | PyStr p =>
      if negb (startswith p "ion") then Ok (self, p)
      else
        let words := split " "%char p in
        self <- (if (1 <? List.length words)%nat
                 then z <- int_of_str (word_at words 1) ;;
                      Ok (set_ion (Ion.set_Z (PyInt z) (ion self)) self)
                 else Ok self) ;;
        self <- (if (2 <? List.length words)%nat
                 then a <- int_of_str (word_at words 2) ;;
                      Ok (set_ion (Ion.set_A (PyInt a) (ion self)) self)
                 else Ok self) ;;
        self <- (if (3 <? List.length words)%nat
                 then e <- int_of_str (word_at words 3) ;;
                      Ok (set_ion (Ion.set_E (PyInt e) (ion self)) self)
                 else Ok self) ;;
        Ok (self, p)
  | _ => Fatal ParticleNotStr
  end.

(** The end of [GenericSource.__init__], once the inherited constructor has
    stored the user info: the words of an ion particle are copied as they
    are, without [int]. *)
Definition init_ion (self : Source) : Source :=
  if negb (startswith (particle self) "ion") then self
  else
    let words := split " "%char (particle self) in
    let self := if (1 <? List.length words)%nat
                then set_ion (Ion.set_Z (PyStr (word_at words 1)) (ion self)) self
                else self in
    let self := if (2 <? List.length words)%nat
                then set_ion (Ion.set_A (PyStr (word_at words 2)) (ion self)) self
                else self in
    let self := if (3 <? List.length words)%nat
                then set_ion (Ion.set_E (PyStr (word_at words 3)) (ion self)) self
                else self in
    self.

(** ** can_predict_number_of_events *)

Definition can_predict_number_of_events (self : Source) : result bool :=
  d <- direction_box self ;;
  let aa := Direction.acceptance_angle d in
  if AcceptanceAngle.intersection_flag aa || AcceptanceAngle.normal_flag aa
  then
    if String.eqb (AcceptanceAngle.skip_policy aa) "ZeroEnergy" then Ok true
    else Ok false
  else Ok true.

(** ** update_tac_activity *)

Definition update_tac_activity (self : Source) : result Source :=
  match tac_times self, tac_activities self with
  | None, None => Ok self
  | _, _ =>
      lt <- len (tac_times self) ;;
      la <- len (tac_activities self) ;;
      if negb (lt =? la)%nat then Fatal (TacSizeMismatch (name self))
      else
        times <- key (tac_times self) ;;
        activities <- key (tac_activities self) ;;
        t0 <- first times ;;
        let self := set_start_time (Some t0) self in
        a0 <- first activities ;;
        let self := set_activity a0 self in
        Ok (SetTAC times activities self)
  end.

(** ** The resolution of n and activity *)

(** Lines 288-297 of [initialize]. *)
Definition resolve_n_activity (self : Source) : result Source :=
  if (n self >? 0) && (activity self >? 0) then Fatal BothNAndActivity
  else if (n self =? 0) && (activity self =? 0) then Fatal NeitherNNorActivity
  else
    let self := if activity self >? 0 then set_n 0 self else self in
    let self := if n self >? 0 then set_activity 0 self else self in
    Ok self.

(** [check_ui_activity(self, ui)]: the same resolution, on [ui]. *)
Definition check_ui_activity (self ui : Source) : result Source :=
  if (n ui >? 0) && (activity ui >? 0) then Fatal BothNAndActivity
  else if (n ui =? 0) && (activity ui =? 0) then Fatal NeitherNNorActivity
  else
    let ui := if activity ui >? 0 then set_n 0 ui else ui in
    let ui := if n ui >? 0 then set_activity 0 ui else ui in
    Ok ui.

(** Truth value of [position.confine]: [None] and the empty string are
    false. *)
Definition truthy (x : option string) : bool :=
  match x with
  | Some (String _ _) => true
  | _ => false
  end.

(** Lines 300-306 of [initialize]; [check_confine] is the same on [ui]. *)
Definition warn_confine (self : Source) : result Source :=
  p <- position_box self ;;
  if truthy (Position.confine p) then
    if String.eqb (Position.type p) "point"
    then Ok (warning (ConfineWithPoint (name self)) self)
    else Ok self
  else Ok self.

(** ** initialize *)

Section Initialize.

Variable imp : Imports.

(** Lines 195-206. *)
Definition check_boxes (self : Source) : result Source :=
  match position self with
  | NotBox _ => Fatal PositionNotBox
  | IsBox _ =>
      match direction self with
      | NotBox _ => Fatal DirectionNotBox
      | IsBox _ =>
          match energy self with
          | NotBox _ => Fatal EnergyNotBox
          | IsBox _ => Ok self
          end
      end
  end.

(** Lines 208-211. *)
Definition force_back_to_back (self : Source) : result Source :=
  if String.eqb (particle self) "back_to_back" then
    e <- energy_box self ;;
    let e := Energy.set_type "mono" e in
    let e := Energy.set_mono (511 * keV imp) e in
    Ok (set_energy (IsBox e) self)
  else Ok self.

(** The list [l] of lines 214-225. *)
Definition energy_types : list string :=
  ["mono"; "gauss"; "F18_analytic"; "O15_analytic"; "C11_analytic";
   "histogram"; "spectrum_discrete"; "spectrum_histogram"; "range"]
  ++ all_beta_plus_radionuclides imp.

(** Lines 226-230. *)
Definition check_energy_type (self : Source) : result Source :=
  e <- energy_box self ;;
  if negb (str_in (Energy.type e) energy_types)
  then Fatal (UnknownEnergyType (Energy.type e) (name self))
  else Ok self.

Definition valid_spectrum_types : list string :=
  ["discrete"; "histogram"; "interpolated"].

(** Lines 238-243. *)
Definition check_spectrum_type (self : Source) : result Source :=
  e <- energy_box self ;;
  match Energy.spectrum_type e with
  | Some st =>
      if negb (str_in st valid_spectrum_types)
      then Fatal (UnknownSpectrumType st (name self))
      else Ok self
  | None => Ok self
  end.

(** Lines 247-257: the tabulated beta plus spectra.  [total] is bound and
    not used afterwards. *)
Definition beta_plus_spectrum (self : Source) : result Source :=
  if String.eqb (particle self) "e+" then
    e <- energy_box self ;;
    if str_in (Energy.type e) (all_beta_plus_radionuclides imp) then
      let data := read_beta_plus_spectra imp (Energy.type e) in
      let ene := map (fun row => fst row / 1000) data in
      let proba := map snd data in
      let '(cdf, total) := compute_cdf_and_total_yield imp proba ene in
      let self := set_energy (IsBox (Energy.set_is_cdf true e)) self in
      let self := SetEnergyCDF ene self in
      Ok (SetProbabilityCDF cdf self)
    else Ok self
  else Ok self.

(** Lines 262-268. *)
Definition check_histogram (self : Source) : result Source :=
  ene <- energy_box self ;;
  if String.eqb (Energy.type ene) "histogram" then
    lw <- (w <- key (Energy.histogram_weight ene) ;; Ok (List.length w)) ;;
    le <- (h <- key (Energy.histogram_energy ene) ;; Ok (List.length h)) ;;
    if negb (lw =? le)%nat then Fatal (HistogramLengthMismatch (name self))
    else Ok self
  else Ok self.

Definition direction_types : list string :=
  ["iso"; "histogram"; "momentum"; "focused"; "beam2d"].

(** Lines 271-276. *)
Definition check_direction_type (self : Source) : result Source :=
  d <- direction_box self ;;
  if negb (str_in (Direction.type d) direction_types)
  then Fatal (UnknownDirectionType (Direction.type d) (name self))
  else Ok self.

(** Lines 279-283. *)
Definition force_life_time (self : Source) : Source :=
  if half_life self >? 0 then
    if user_particle_life_time self <? 0
    then set_user_particle_life_time 0 self
    else self
  else self.

(** The part of [initialize] that runs before [update_tac_activity]. *)
Definition initialize_energy (self : Source) : result Source :=
  self <- check_boxes self ;;
  self <- force_back_to_back self ;;
  self <- check_energy_type self ;;
  self <- check_spectrum_type self ;;
  beta_plus_spectrum self.

(** The part of [initialize] between [update_tac_activity] and the
    resolution of [n] and [activity], [SourceBase.initialize] included. *)
Definition initialize_direction_and_base
    (self : Source) (run_timing_intervals : RunTimingIntervals)
    : result Source :=
  self <- check_histogram self ;;
  self <- check_direction_type self ;;
  let self := force_life_time self in
  SourceBase_initialize imp self run_timing_intervals.

(** [GenericSource.initialize], in the order of the source. *)
Definition initialize
    (self : Source) (run_timing_intervals : RunTimingIntervals)
    : result Source :=
  self <- initialize_energy self ;;
  self <- update_tac_activity self ;;
  self <- initialize_direction_and_base self run_timing_intervals ;;
  self <- resolve_n_activity self ;;
  warn_confine self.

End Initialize.

(** ** An instance of the imports, and sample sources *)

Module Sample.

(** Modelled from the spec: [compute_cdf_and_total_yield] is defined in
    sources/base.py, which is not available.  Section 4.2 gives
    [cdf[i] = cdf[i-1] + probabilities[i] * (energies[i] - energies[i-1])]
    and [total_yield = cdf[last]]; the accumulation starts from zero at the
    first energy. *)
Fixpoint cdf_from (prev_cdf prev_ene : Q) (proba ene : list Q) : list Q :=
  match proba, ene with
  | p :: ps, e :: es =>
      let c := prev_cdf + p * (e - prev_ene) in
      c :: cdf_from c e ps es
  | _, _ => []
  end.

Definition compute_cdf_and_total_yield (proba ene : list Q) : list Q * Q :=
  let cdf := match ene with
             | e0 :: _ => cdf_from 0 e0 proba ene
             | [] => []
             end in
  (cdf, last cdf 0).

(** A three-row table standing for the tabulated spectrum of any name. *)
Definition read_beta_plus_spectra (_ : string) : list (Q * Q) :=
  [(0, 0); (250, 2); (500, 1)].

(** Modelled from the spec: [SourceBase.initialize] is defined in
    sources/base.py, which is not available.  The spec describes it only
    as the place where the simulation time window is received (section 6);
    this instance accepts the window and leaves the source as it is. *)
Definition SourceBase_initialize
    (self : Source) (_ : RunTimingIntervals) : result Source :=
  Ok self.

(** [keV] in Geant4's system of units, where the MeV is the unit. *)
Definition imports : Imports :=
  mkImports (1 # 1000) ["F18"; "Ga68"; "C11"; "N13"; "O15"]
    read_beta_plus_spectra compute_cdf_and_total_yield
    SourceBase_initialize.

(** A source with the default user info of [GenericSource] and the given
    [n] and [activity]. *)
Definition source (n activity : Q) : Source :=
  mkSource "src" "gamma" Ion.default (-1) None None
    (IsBox Position.default) (IsBox Direction.default)
    (IsBox Energy.default) n activity (-1) None None None None [].

Definition with_tac (times activities : option (list Q)) (s : Source)
    : Source :=
  mkSource (name s) (particle s) (ion s) (user_particle_life_time s)
    times activities (position s) (direction s) (energy s) (n s)
    (activity s) (half_life s) (start_time s) (g4_energy_cdf s)
    (g4_probability_cdf s) (g4_tac s) (warnings s).

Definition with_half_life (v : Q) (s : Source) : Source :=
  mkSource (name s) (particle s) (ion s) (user_particle_life_time s)
    (tac_times s) (tac_activities s) (position s) (direction s) (energy s)
    (n s) (activity s) v (start_time s) (g4_energy_cdf s)
    (g4_probability_cdf s) (g4_tac s) (warnings s).

Definition with_direction (d : Direction.t) (s : Source) : Source :=
  mkSource (name s) (particle s) (ion s) (user_particle_life_time s)
    (tac_times s) (tac_activities s) (position s) (IsBox d) (energy s)
    (n s) (activity s) (half_life s) (start_time s) (g4_energy_cdf s)
    (g4_probability_cdf s) (g4_tac s) (warnings s).

(** [energy.type = ty], on the default energy. *)
Definition with_energy_type (ty : string) (s : Source) : Source :=
  set_energy (IsBox (Energy.set_type ty Energy.default)) s.

(** [energy.spectrum_type = st], on the default energy. *)
Definition with_spectrum_type (st : option string) (s : Source) : Source :=
  set_energy
    (IsBox (Energy.mk "mono" 0 0 false None None st None None)) s.

(** An acceptance angle with [intersection_flag] set and the given
    policy. *)
Definition intersecting (policy : string) : Direction.t :=
  Direction.mk "iso" (AcceptanceAngle.mk policy ["detector"] true false).

End Sample.

(** ** Vocabulary of the properties *)

(** Everything [initialize] leaves alone while it deals with the energy:
    all of the source but [energy] and the two CDF vectors of the Geant4
    object. *)
Definition outside_energy (s : Source) :=
  (name s, particle s, ion s, user_particle_life_time s, tac_times s,
   tac_activities s, position s, direction s, n s, activity s, half_life s,
   start_time s, g4_tac s, warnings s).

(** [SourceBase.initialize] does not modify the attribute [f]. *)
Definition base_keeps {A : Type} (imp : Imports) (f : Source -> A) : Prop :=
  forall s rti s', SourceBase_initialize imp s rti = Ok s' -> f s' = f s.

(** [initialize] up to the resolution of [n] and [activity]. *)
Definition initialize_validation
    (imp : Imports) (self : Source) (rti : RunTimingIntervals)
    : result Source :=
  self <- initialize_energy imp self ;;
  self <- update_tac_activity self ;;
  initialize_direction_and_base imp self rti.

(** One of the acceptance flags is set. *)
Definition rejecting (aa : AcceptanceAngle.t) : Prop :=
  AcceptanceAngle.intersection_flag aa = true
  \/ AcceptanceAngle.normal_flag aa = true.

Ltac break_match :=
  match goal with
  | H : context [match ?x with _ => _ end] |- _ => destruct x eqn:?
  | |- context [match ?x with _ => _ end] => destruct x eqn:?
  end.

(** ** Further vocabulary *)

(** The decimal writing of a natural number, as Python's [str] gives it. *)
Definition decimal (k : nat) : string :=
  NilZero.string_of_uint (Nat.to_uint k).

(** The particle strings 'ion Z A E' and 'ion Z A'. *)
Definition ion_particle3 (z a e : nat) : string :=
  "ion " ++ decimal z ++ " " ++ decimal a ++ " " ++ decimal e.

Definition ion_particle2 (z a : nat) : string :=
  "ion " ++ decimal z ++ " " ++ decimal a.

(** Every character of [s] satisfies [f]. *)
Fixpoint all_chars (f : ascii -> bool) (s : string) : bool :=
  match s with
  | EmptyString => true
  | String c rest => f c && all_chars f rest
  end.

Definition not_space (c : ascii) : bool := negb (Ascii.eqb c " "%char).

Definition is_digit (c : ascii) : bool :=
  match digit_of c with
  | Some _ => true
  | None => false
  end.

(** [check_confine(self, ui)], lines 320-328: the advisory of [initialize],
    on [ui]. *)
Definition check_confine (self ui : Source) : result Source :=
  p <- position_box ui ;;
  if truthy (Position.confine p) then
    if String.eqb (Position.type p) "point"
    then Ok (warning (ConfineWithPoint (name ui)) ui)
    else Ok ui
  else Ok ui.

(** The checks of [initialize] that precede [SourceBase.initialize], in the
    order of the source. *)
Definition initialize_checks (imp : Imports) (self : Source)
    : result Source :=
  self <- initialize_energy imp self ;;
  self <- update_tac_activity self ;;
  self <- check_histogram self ;;
  check_direction_type self.

(** A source with the default position, direction and energy of
    [user_info_defaults], no time activity curve, and anything for the rest. *)
Definition default_user_info
    (name particle : string) (ion : Ion.t) (life_time n activity half_life : Q)
    (start_time : option Q) : Source :=
  mkSource name particle ion life_time None None
    (IsBox Position.default) (IsBox Direction.default)
    (IsBox Energy.default) n activity half_life start_time
    None None None [].

(** ** The template source *)

Module Template.

(** The two messages of [TemplateSource.initialize]. *)
Inductive Msg : Type :=
| FloatValueMissing (source_name : string)
| VectorValueMissing (source_name : string).

Inductive outcome (A : Type) : Type :=
| Done (a : A)
| Failed (m : Msg).

Arguments Done {A} a.
Arguments Failed {A} m.

(** The user info of a template source; [float_value] and [vector_value]
    are [None] until the user sets them. *)
Record UserInfo : Type := mkUserInfo {
  name : string;
  float_value : option Q;
  vector_value : option (list Q)
}.

(** [TemplateSource.set_default_user_info(user_info)], with the inherited
    [SourceBase.set_default_user_info] as [base_defaults]. *)
Definition set_default_user_info
    (base_defaults : UserInfo -> UserInfo) (user_info : UserInfo)
    : UserInfo :=
  let user_info := base_defaults user_info in
  mkUserInfo (name user_info) None None.

(** [TemplateSource.initialize(self, run_timing_intervals)], with the
    inherited [SourceBase.initialize] as [base_initialize]. *)
Definition initialize
    (base_initialize : UserInfo -> RunTimingIntervals -> outcome UserInfo)
    (self : UserInfo) (run_timing_intervals : RunTimingIntervals)
    : outcome UserInfo :=
  match float_value self with
  | None => Failed (FloatValueMissing (name self))
  | Some _ =>
      match vector_value self with
      | None => Failed (VectorValueMissing (name self))
      | Some _ => base_initialize self run_timing_intervals
      end
  end.

End Template.

(** ** test075_2 *)

(** The comparison of two dose images in the test script
    test075_dose_actor_just_secondary_dose.py.  The voxels are of a type [F]
    of which only the operations used are assumed: [np.sum], the
    subtraction, [np.abs], the division, [<] and [!= 0]. *)
Module Test075.

Section Compare.

Variable F : Type.
Variable zero : F.
Variable np_sum : list (list (list F)) -> F.
Variable sub : F -> F -> F.
Variable np_abs : F -> F.
Variable div : F -> F -> F.
Variable ltb : F -> F -> bool.
Variable nonzero : F -> bool.

(** [l[lo:hi] = f(l[lo:hi])] element by element, for a list whose first
    element has index [i]: the elements at indices from [lo] to [hi - 1] are
    replaced, as far as the list goes. *)
Fixpoint on_slice_from {A : Type} (i lo hi : nat) (f : A -> A) (l : list A)
    : list A :=
  match l with
  | [] => []
  | x :: rest =>
      (if (lo <=? i)%nat && (i <? hi)%nat then f x else x)
      :: on_slice_from (S i) lo hi f rest
  end.

Definition on_slice {A : Type} (lo hi : nat) (f : A -> A) (l : list A)
    : list A :=
  on_slice_from 0 lo hi f l.

(** The indices [j], [k] that [10:30, 10:30] selects. *)
Definition in_field (j k : nat) : bool :=
  ((10 <=? j) && (j <? 30) && ((10 <=? k) && (k <? 30)))%nat.

(** [img[:, 10:30, 10:30] = 0]. *)
Definition clear_field (img : list (list (list F))) : list (list (list F)) :=
  map (on_slice 10 30 (on_slice 10 30 (fun _ => zero))) img.

(** [img[i, j, k]], when the three indices are in range. *)
Definition voxel (img : list (list (list F))) (i j k : nat) : option F :=
  match nth_error img i with
  | Some plane =>
      match nth_error plane j with
      | Some row => nth_error row k
      | None => None
      end
  | None => None
  end.

(** [test075_2(img_arr_1, img_arr_2, tol)]: the verdict, and the two arrays
    as the call leaves them. *)
Definition test075_2 (img_arr_1 img_arr_2 : list (list (list F))) (tol : F)
    : bool * list (list (list F)) * list (list (list F)) :=
  let img_arr_1 := clear_field img_arr_1 in
  let img_arr_2 := clear_field img_arr_2 in
  if ltb (div (np_abs (sub (np_sum img_arr_1) (np_sum img_arr_2)))
            (np_sum img_arr_2)) tol
     && nonzero (np_sum img_arr_2)
  then (true, img_arr_1, img_arr_2)
  else (false, img_arr_1, img_arr_2).

End Compare.

End Test075.

(** * Properties *)

(** ** The result monad *)

Lemma bind_Ok_inv {A B : Type} (r : result A) (k : A -> result B) (b : B) :
  bind r k = Ok b -> exists a, r = Ok a /\ k a = Ok b.
Proof.
  destruct r as [a | m | e]; simpl; intros H; try discriminate.
  exists a; split; [reflexivity | exact H].
Qed.

Lemma bind_assoc {A B C : Type}
    (r : result A) (f : A -> result B) (g : B -> result C) :
  bind (bind r f) g = bind r (fun a => bind (f a) g).
Proof. destruct r; reflexivity. Qed.

Lemma bind_Fatal {A B : Type} (r : result A) (k : A -> result B) :
  is_fatal r -> is_fatal (bind r k).
Proof. intros [m ->]. exists m. reflexivity. Qed.

(** ** Comparisons *)

Lemma Qgtb_true (x y : Q) : (x >? y) = true <-> y < x.
Proof.
  unfold Qgtb. rewrite negb_true_iff. split.
  - intros H. apply Qnot_le_lt. intros Hle.
    apply Qle_bool_iff in Hle. congruence.
  - intros H. destruct (Qle_bool x y) eqn:E; [ | reflexivity].
    apply Qle_bool_iff in E. exfalso. apply (Qlt_not_le _ _ H E).
Qed.

Lemma Qgtb_false (x y : Q) : (x >? y) = false <-> x <= y.
Proof.
  unfold Qgtb. rewrite negb_false_iff. apply Qle_bool_iff.
Qed.

Lemma Qeqb_true (x y : Q) : (x =? y) = true <-> x == y.
Proof. apply Qeq_bool_iff. Qed.

Lemma Qeqb_false (x y : Q) : (x =? y) = false <-> ~ x == y.
Proof.
  split.
  - intros H E. apply Qeq_bool_iff in E. congruence.
  - intros H. destruct (x =? y) eqn:E; [ | reflexivity].
    apply Qeq_bool_iff in E. contradiction.
Qed.

(** ** The steps of initialize *)

Section Steps.

Variable imp : Imports.

Local Opaque str_in.

Lemma check_boxes_Ok s s' :
  check_boxes s = Ok s' ->
  s' = s /\ (exists p, position s = IsBox p)
  /\ (exists d, direction s = IsBox d) /\ (exists e, energy s = IsBox e).
Proof.
  unfold check_boxes. intros H.
  destruct (position s) as [p | ]; try discriminate.
  destruct (direction s) as [d | ]; try discriminate.
  destruct (energy s) as [e | ]; try discriminate.
  injection H as <-. eauto 10.
Qed.

Lemma initialize_energy_frame s s' :
  initialize_energy imp s = Ok s' -> outside_energy s' = outside_energy s.
Proof.
  unfold initialize_energy, check_boxes, force_back_to_back,
    check_energy_type, check_spectrum_type, beta_plus_spectrum, energy_box.
  intros H.
  repeat (break_match; cbn in *; try discriminate);
    injection H as <-; reflexivity.
Qed.

Lemma initialize_energy_not_raised s e :
  initialize_energy imp s <> Raised e.
Proof.
  unfold initialize_energy, check_boxes, force_back_to_back,
    check_energy_type, check_spectrum_type, beta_plus_spectrum, energy_box.
  repeat (break_match; cbn in *; try discriminate).
Qed.

Lemma initialize_energy_not_tac s nm :
  initialize_energy imp s <> Fatal (TacSizeMismatch nm).
Proof.
  unfold initialize_energy, check_boxes, force_back_to_back,
    check_energy_type, check_spectrum_type, beta_plus_spectrum, energy_box.
  repeat (break_match; cbn in *; try discriminate).
Qed.

Lemma initialize_energy_boxes s s' :
  initialize_energy imp s = Ok s' ->
  check_boxes s = Ok s /\ exists e', energy s' = IsBox e'.
Proof.
  unfold initialize_energy, check_boxes, force_back_to_back,
    check_energy_type, check_spectrum_type, beta_plus_spectrum, energy_box.
  intros H.
  repeat (break_match; cbn in *; try discriminate);
    injection H as <-; cbn; split; eauto.
Qed.

Lemma initialize_energy_back_to_back s s' :
  particle s = "back_to_back" ->
  initialize_energy imp s = Ok s' ->
  exists e', energy s' = IsBox e' /\ Energy.type e' = "mono"
             /\ Energy.mono e' = 511 * keV imp.
Proof.
  unfold initialize_energy, check_boxes, force_back_to_back,
    check_energy_type, check_spectrum_type, beta_plus_spectrum, energy_box.
  intros Hp H.
  destruct (position s); destruct (direction s);
    destruct (energy s) eqn:Ee; cbn in H; try discriminate.
  rewrite Hp in H. cbn in H. rewrite Ee in H. cbn in H.
  repeat (break_match; cbn in *; try discriminate);
    injection H as <-; cbn;
    repeat match goal with
           | E : Ok _ = Ok _ |- _ => injection E as <-
           end; eauto.
Qed.

Lemma update_tac_activity_Ok s s' :
  update_tac_activity s = Ok s' ->
  (tac_times s = None /\ tac_activities s = None /\ s' = s)
  \/ exists t0 ts a0 acts,
       tac_times s = Some (t0 :: ts) /\ tac_activities s = Some (a0 :: acts)
       /\ List.length ts = List.length acts
       /\ s' = SetTAC (t0 :: ts) (a0 :: acts)
                 (set_activity a0 (set_start_time (Some t0) s)).
Proof.
  unfold update_tac_activity. intros H.
  destruct (tac_times s) as [[ | t0 ts] | ];
    destruct (tac_activities s) as [[ | a0 acts] | ];
    cbn in H; try discriminate.
  - right. destruct (Nat.eqb (List.length ts) (List.length acts)) eqn:E;
      cbn in H; try discriminate.
    apply Nat.eqb_eq in E. injection H as <-.
    exists t0, ts, a0, acts. auto.
  - left. injection H as <-. auto.
Qed.

Lemma check_histogram_Ok s s' : check_histogram s = Ok s' -> s' = s.
Proof.
  unfold check_histogram, energy_box, key. intros H.
  repeat (break_match; cbn in *; try discriminate);
    injection H as <-; reflexivity.
Qed.

Lemma check_direction_type_Ok s s' :
  check_direction_type s = Ok s' -> s' = s.
Proof.
  unfold check_direction_type, direction_box. intros H.
  repeat (break_match; cbn in *; try discriminate);
    injection H as <-; reflexivity.
Qed.

Lemma warn_confine_Ok s s' :
  warn_confine s = Ok s' ->
  s' = s \/ s' = warning (ConfineWithPoint (name s)) s.
Proof.
  unfold warn_confine, position_box. intros H.
  repeat (break_match; cbn in *; try discriminate);
    injection H as <-; auto.
Qed.

Lemma warn_confine_not_fatal s : ~ is_fatal (warn_confine s).
Proof.
  unfold warn_confine, position_box. intros [m H].
  repeat (break_match; cbn in *; try discriminate).
Qed.

(** The resolution of [n] and [activity], case by case. *)
Lemma resolve_n_activity_cases s :
  match resolve_n_activity s with
  | Fatal m =>
      (0 < n s /\ 0 < activity s /\ m = BothNAndActivity)
      \/ (n s == 0 /\ activity s == 0 /\ m = NeitherNNorActivity)
  | Ok s' =>
      ~ (0 < n s /\ 0 < activity s) /\ ~ (n s == 0 /\ activity s == 0)
      /\ ((0 < activity s /\ s' = set_n 0 s)
          \/ (activity s <= 0 /\ 0 < n s /\ s' = set_activity 0 s)
          \/ (activity s <= 0 /\ n s <= 0 /\ s' = s))
  | Raised _ => False
  end.
Proof.
  unfold resolve_n_activity. cbv zeta.
  destruct (activity s >? 0) eqn:Ea; destruct (n s >? 0) eqn:En;
    cbn [andb n set_n activity set_activity];
    rewrite ?Qgtb_true, ?Qgtb_false in *.
  - left. auto.
  - destruct ((n s =? 0) && (activity s =? 0)) eqn:Ez.
    + apply andb_true_iff in Ez. destruct Ez as [_ Ez].
      apply Qeqb_true in Ez. rewrite Ez in Ea.
      exfalso. apply (Qlt_irrefl _ Ea).
    + change (0 >? 0) with false. cbv iota.
      split; [ | split].
      * intros [H _]. apply (Qlt_not_le _ _ H En).
      * intros [_ H]. rewrite H in Ea. apply (Qlt_irrefl _ Ea).
      * left. auto.
  - destruct ((n s =? 0) && (activity s =? 0)) eqn:Ez.
    + apply andb_true_iff in Ez. destruct Ez as [Ez _].
      apply Qeqb_true in Ez. rewrite Ez in En.
      exfalso. apply (Qlt_irrefl _ En).
    + split; [ | split].
      * intros [_ H]. apply (Qlt_not_le _ _ H Ea).
      * intros [H _]. rewrite H in En. apply (Qlt_irrefl _ En).
      * right; left. auto.
  - destruct ((n s =? 0) && (activity s =? 0)) eqn:Ez.
    + apply andb_true_iff in Ez. destruct Ez as [E1 E2].
      apply Qeqb_true in E1, E2. right. auto.
    + split; [ | split].
      * intros [_ H]. apply (Qlt_not_le _ _ H Ea).
      * intros [E1 E2]. apply andb_false_iff in Ez.
        destruct Ez as [Ez | Ez]; apply Qeqb_false in Ez; contradiction.
      * right; right. auto.
Qed.

End Steps.

(** ** The particle setter hook *)

(** C7: setting [particle] to "ion 9 18 0" goes through the setter hook,
    which stores the integers 9, 18 and 0 in [ion.Z], [ion.A] and [ion.E]
    and returns the string unchanged, whatever the source was before. *)
Theorem setter_hook_ion_9_18_0 :
  forall self : Source,
    _setter_hook_generic_source_particle self (PyStr "ion 9 18 0")
    = Ok (set_ion (Ion.mk (PyInt 9) (PyInt 18) (PyInt 0)) self,
          "ion 9 18 0").
Proof. intros self. reflexivity. Qed.

(** The constructor, for a particle given at construction time, keeps the
    words as strings. *)
Remark init_ion_9_18_0 :
  forall self : Source,
    ion (init_ion (set_particle "ion 9 18 0" self))
    = Ion.mk (PyStr "9") (PyStr "18") (PyStr "0").
Proof. intros self. reflexivity. Qed.

(** A particle that does not start with "ion" leaves the ion alone. *)
Remark setter_hook_simple_particle :
  forall (self : Source) (p : string),
    startswith p "ion" = false ->
    _setter_hook_generic_source_particle self (PyStr p) = Ok (self, p).
Proof.
  intros self p H. unfold _setter_hook_generic_source_particle.
  rewrite H. reflexivity.
Qed.

(** ** Predicting the number of events *)

Lemma can_predict_number_of_events_eq (s : Source) (d : Direction.t) :
  direction s = IsBox d ->
  can_predict_number_of_events s
  = Ok (negb (AcceptanceAngle.intersection_flag (Direction.acceptance_angle d)
              || AcceptanceAngle.normal_flag (Direction.acceptance_angle d))
        || String.eqb
             (AcceptanceAngle.skip_policy (Direction.acceptance_angle d))
             "ZeroEnergy").
Proof.
  intros Hd. unfold can_predict_number_of_events, direction_box.
  rewrite Hd. cbn [bind].
  destruct (AcceptanceAngle.intersection_flag _ || AcceptanceAngle.normal_flag _);
    destruct (String.eqb _ _); reflexivity.
Qed.

(** For any policy string: [can_predict_number_of_events] returns true when
    no acceptance flag is set and when one is set with the policy
    "ZeroEnergy"; it returns false exactly when a flag is set and the policy
    is anything but "ZeroEnergy", "SkipEvents" being one such value. *)
Theorem can_predict_number_of_events_spec :
  forall (s : Source) (d : Direction.t),
    direction s = IsBox d ->
    let aa := Direction.acceptance_angle d in
    (~ rejecting aa -> can_predict_number_of_events s = Ok true)
    /\ (rejecting aa -> AcceptanceAngle.skip_policy aa = "ZeroEnergy" ->
        can_predict_number_of_events s = Ok true)
    /\ (rejecting aa -> AcceptanceAngle.skip_policy aa = "SkipEvents" ->
        can_predict_number_of_events s = Ok false)
    /\ (can_predict_number_of_events s = Ok false <->
        rejecting aa /\ AcceptanceAngle.skip_policy aa <> "ZeroEnergy").
Proof.
  intros s d Hd aa. rewrite (can_predict_number_of_events_eq s d Hd).
  fold aa. unfold rejecting.
  destruct (AcceptanceAngle.intersection_flag aa);
    destruct (AcceptanceAngle.normal_flag aa); cbn [orb negb];
    destruct (String.eqb_spec (AcceptanceAngle.skip_policy aa) "ZeroEnergy")
      as [E | E];
    repeat split; intros; try reflexivity; try discriminate; try tauto;
    try congruence;
    try (exfalso; intuition congruence).
Qed.

Lemma can_predict_number_of_events_spec_witness :
  let s := Sample.with_direction (Sample.intersecting "SkipEvents")
             (Sample.source 1000 0) in
  can_predict_number_of_events s = Ok false.
Proof.
  intros s.
  destruct (can_predict_number_of_events_spec s
              (Sample.intersecting "SkipEvents") eq_refl) as (_ & _ & H & _).
  apply H.
  - left. reflexivity.
  - reflexivity.
Defined.

(** C2: for every configuration whose [skip_policy] is one of the two
    policies, "SkipEvents" and "ZeroEnergy",
    [can_predict_number_of_events] returns true when neither
    [intersection_flag] nor [normal_flag] is set, and also when a flag is
    set and the policy is "ZeroEnergy"; it returns false exactly when a flag
    is set and the policy is "SkipEvents". *)
Theorem can_predict_number_of_events_documented :
  forall (s : Source) (d : Direction.t),
    direction s = IsBox d ->
    let aa := Direction.acceptance_angle d in
    AcceptanceAngle.skip_policy aa = "SkipEvents"
    \/ AcceptanceAngle.skip_policy aa = "ZeroEnergy" ->
    (~ rejecting aa -> can_predict_number_of_events s = Ok true)
    /\ (rejecting aa -> AcceptanceAngle.skip_policy aa = "ZeroEnergy" ->
        can_predict_number_of_events s = Ok true)
    /\ (can_predict_number_of_events s = Ok false <->
        rejecting aa /\ AcceptanceAngle.skip_policy aa = "SkipEvents").
Proof.
  intros s d Hd aa Hdom. rewrite (can_predict_number_of_events_eq s d Hd).
  fold aa. unfold rejecting.
  destruct (AcceptanceAngle.intersection_flag aa);
    destruct (AcceptanceAngle.normal_flag aa); cbn [orb negb];
    destruct Hdom as [-> | ->]; cbn [String.eqb Ascii.eqb Bool.eqb orb];
    repeat split; intros; try reflexivity; try discriminate; try tauto;
    try (exfalso; intuition congruence).
Qed.

Lemma can_predict_number_of_events_documented_witness :
  let s := Sample.with_direction (Sample.intersecting "SkipEvents")
             (Sample.source 1000 0) in
  can_predict_number_of_events s = Ok false.
Proof.
  intros s.
  destruct (can_predict_number_of_events_documented s
              (Sample.intersecting "SkipEvents") eq_refl)
    as (_ & _ & H).
  - left. reflexivity.
  - apply H. split; [left | ]; reflexivity.
Defined.

(** With a flag set and a policy that is neither of the two documented
    values the answer is false, although the policy is not "SkipEvents". *)
Lemma can_predict_number_of_events_other_policy :
  let s := Sample.with_direction (Sample.intersecting "Other")
             (Sample.source 1000 0) in
  let aa := Direction.acceptance_angle (Sample.intersecting "Other") in
  can_predict_number_of_events s = Ok false
  /\ ~ (can_predict_number_of_events s = Ok false <->
        rejecting aa /\ AcceptanceAngle.skip_policy aa = "SkipEvents").
Proof.
  cbv zeta. split; [reflexivity | ].
  intros [H _]. destruct (H eq_refl) as [_ E]. discriminate E.
Qed.

(** ** The time activity curve *)

Lemma initialize_energy_tac (imp : Imports) (s s' : Source) :
  initialize_energy imp s = Ok s' ->
  tac_times s' = tac_times s /\ tac_activities s' = tac_activities s
  /\ name s' = name s.
Proof.
  intros H. apply initialize_energy_frame in H.
  unfold outside_energy in H. inversion H. auto.
Qed.

Lemma update_tac_activity_TypeError (s : Source) :
  (tac_times s = None /\ tac_activities s <> None)
  \/ (tac_times s <> None /\ tac_activities s = None) ->
  update_tac_activity s = Raised TypeError.
Proof.
  unfold update_tac_activity.
  destruct (tac_times s) as [ts | ]; destruct (tac_activities s) as [acts | ];
    cbn; intros [[H1 H2] | [H1 H2]]; congruence.
Qed.

Lemma update_tac_activity_mismatch (s : Source) (ts acts : list Q) :
  tac_times s = Some ts -> tac_activities s = Some acts ->
  List.length ts <> List.length acts ->
  update_tac_activity s = Fatal (TacSizeMismatch (name s)).
Proof.
  intros Ht Ha Hlen. unfold update_tac_activity. rewrite Ht, Ha. cbn.
  apply Nat.eqb_neq in Hlen. rewrite Hlen. reflexivity.
Qed.

Lemma update_tac_activity_overwrite (s : Source) (t0 a0 : Q) (ts acts : list Q) :
  tac_times s = Some (t0 :: ts) -> tac_activities s = Some (a0 :: acts) ->
  List.length ts = List.length acts ->
  update_tac_activity s
  = Ok (SetTAC (t0 :: ts) (a0 :: acts)
          (set_activity a0 (set_start_time (Some t0) s))).
Proof.
  intros Ht Ha Hlen. unfold update_tac_activity. rewrite Ht, Ha. cbn.
  apply Nat.eqb_eq in Hlen. rewrite Hlen. reflexivity.
Qed.

(** C9: with exactly one of [tac_times] and [tac_activities] left at [None],
    [update_tac_activity] neither returns early nor reports the size
    mismatch: taking the length of [None] raises [TypeError].  In
    [initialize] this is what happens unless one of the checks on the energy
    has already stopped it. *)
Theorem update_tac_activity_one_none :
  forall (imp : Imports) (s : Source) (rti : RunTimingIntervals),
    (tac_times s = None /\ tac_activities s <> None)
    \/ (tac_times s <> None /\ tac_activities s = None) ->
    update_tac_activity s = Raised TypeError
    /\ (initialize imp s rti = Raised TypeError
        \/ exists m, initialize_energy imp s = Fatal m
                     /\ initialize imp s rti = Fatal m)
    /\ (forall nm, initialize imp s rti <> Fatal (TacSizeMismatch nm))
    /\ ~ is_ok (initialize imp s rti).
Proof.
  intros imp s rti Hone.
  assert (Hu : update_tac_activity s = Raised TypeError)
    by (apply update_tac_activity_TypeError; exact Hone).
  split; [exact Hu | ].
  unfold initialize.
  destruct (initialize_energy imp s) as [s1 | m | e] eqn:E; cbn [bind].
  - destruct (initialize_energy_tac imp s s1 E) as (Ht & Ha & _).
    rewrite update_tac_activity_TypeError by (rewrite Ht, Ha; exact Hone).
    cbn [bind]. repeat split.
    + left. reflexivity.
    + intros nm H. discriminate H.
    + intros [a H]. discriminate H.
  - repeat split.
    + right. exists m. auto.
    + intros nm H. injection H as ->.
      exact (initialize_energy_not_tac imp s nm E).
    + intros [a H]. discriminate H.
  - exfalso. exact (initialize_energy_not_raised imp s e E).
Qed.

Lemma update_tac_activity_one_none_witness :
  let s := Sample.with_tac (Some [0; 1; 2]) None (Sample.source 0 10) in
  update_tac_activity s = Raised TypeError
  /\ initialize Sample.imports s [] = Raised TypeError.
Proof.
  intros s.
  destruct (update_tac_activity_one_none Sample.imports s [])
    as (H1 & [H2 | (m & H2 & _)] & _).
  - right. split; [discriminate | reflexivity].
  - split; assumption.
  - discriminate H2.
Defined.

(** ** The run of initialize *)

Lemma initialize_direction_and_base_Ok
    (imp : Imports) (s : Source) (rti : RunTimingIntervals) (s' : Source) :
  initialize_direction_and_base imp s rti = Ok s' ->
  check_histogram s = Ok s /\ check_direction_type s = Ok s
  /\ SourceBase_initialize imp (force_life_time s) rti = Ok s'.
Proof.
  unfold initialize_direction_and_base. intros H.
  apply bind_Ok_inv in H. destruct H as (s1 & H1 & H).
  pose proof (check_histogram_Ok s s1 H1) as ->.
  apply bind_Ok_inv in H. destruct H as (s2 & H2 & H).
  pose proof (check_direction_type_Ok s s2 H2) as ->.
  auto.
Qed.

Lemma resolve_n_activity_Ok (s s' : Source) :
  resolve_n_activity s = Ok s' ->
  s' = set_n 0 s \/ s' = set_activity 0 s \/ s' = s.
Proof.
  intros H. pose proof (resolve_n_activity_cases s) as C. rewrite H in C.
  destruct C as (_ & _ & [[_ ->] | [(_ & _ & ->) | (_ & _ & ->)]]); auto.
Qed.

(** A successful [initialize] has gone through every step. *)
Lemma initialize_Ok
    (imp : Imports) (s : Source) (rti : RunTimingIntervals) (s' : Source) :
  initialize imp s rti = Ok s' ->
  exists s1 s2 s3 s4,
    initialize_energy imp s = Ok s1
    /\ update_tac_activity s1 = Ok s2
    /\ SourceBase_initialize imp (force_life_time s2) rti = Ok s3
    /\ resolve_n_activity s3 = Ok s4
    /\ warn_confine s4 = Ok s'.
Proof.
  unfold initialize. intros H.
  apply bind_Ok_inv in H. destruct H as (s1 & H1 & H).
  apply bind_Ok_inv in H. destruct H as (s2 & H2 & H).
  apply bind_Ok_inv in H. destruct H as (s3 & H3 & H).
  apply bind_Ok_inv in H. destruct H as (s4 & H4 & H).
  apply initialize_direction_and_base_Ok in H3. destruct H3 as (_ & _ & H3).
  exists s1, s2, s3, s4. auto.
Qed.

Lemma initialize_split
    (imp : Imports) (s : Source) (rti : RunTimingIntervals) :
  initialize imp s rti
  = (s3 <- initialize_validation imp s rti ;;
     s4 <- resolve_n_activity s3 ;;
     warn_confine s4).
Proof.
  unfold initialize, initialize_validation.
  destruct (initialize_energy imp s) as [s1 | | ]; cbn [bind];
    try reflexivity.
  destruct (update_tac_activity s1); reflexivity.
Qed.

Lemma force_life_time_energy (s : Source) :
  energy (force_life_time s) = energy s.
Proof.
  unfold force_life_time.
  destruct (half_life s >? 0); [ | reflexivity].
  destruct (user_particle_life_time s <? 0); reflexivity.
Qed.

Lemma update_tac_activity_keeps (s s' : Source) :
  update_tac_activity s = Ok s' ->
  energy s' = energy s /\ half_life s' = half_life s
  /\ user_particle_life_time s' = user_particle_life_time s
  /\ n s' = n s /\ name s' = name s /\ direction s' = direction s.
Proof.
  intros H. apply update_tac_activity_Ok in H.
  destruct H as [(_ & _ & ->) | (t0 & ts & a0 & acts & _ & _ & _ & ->)];
    cbn; auto 10.
Qed.

Lemma resolve_n_activity_keeps (s s' : Source) :
  resolve_n_activity s = Ok s' ->
  energy s' = energy s
  /\ user_particle_life_time s' = user_particle_life_time s.
Proof.
  intros H. apply resolve_n_activity_Ok in H.
  destruct H as [-> | [-> | ->]]; cbn; auto.
Qed.

Lemma warn_confine_keeps (s s' : Source) :
  warn_confine s = Ok s' ->
  energy s' = energy s
  /\ user_particle_life_time s' = user_particle_life_time s
  /\ n s' = n s /\ activity s' = activity s.
Proof.
  intros H. apply warn_confine_Ok in H.
  destruct H as [-> | ->]; cbn; auto.
Qed.

Lemma str_in_In (x : string) (l : list string) :
  str_in x l = true <-> In x l.
Proof.
  unfold str_in. rewrite existsb_exists. split.
  - intros (y & Hy & E). apply String.eqb_eq in E. subst. exact Hy.
  - intros H. exists x. split; [exact H | apply String.eqb_refl].
Qed.

(** ** The curve in initialize *)

Lemma force_life_time_keeps (s : Source) :
  start_time (force_life_time s) = start_time s
  /\ activity (force_life_time s) = activity s
  /\ n (force_life_time s) = n s.
Proof.
  unfold force_life_time.
  destruct (half_life s >? 0); [ | auto].
  destruct (user_particle_life_time s <? 0); auto.
Qed.

(** C4, for curves that are not empty: when both [tac_times] and
    [tac_activities] are lists, [initialize] fails fatally if their lengths
    differ; when the lengths are equal and not zero, [update_tac_activity]
    succeeds, overwrites [start_time] with [tac_times[0]] and [activity]
    with [tac_activities[0]] and hands the curve to the Geant4 object, and
    [initialize] goes on from that state.  After a successful [initialize],
    [SourceBase.initialize] being taken not to touch them, [start_time] is
    [tac_times[0]] and [activity] is [tac_activities[0]], except that the
    resolution of [n] and [activity] has put [activity] back to zero when
    [n] is strictly positive and [tac_activities[0]] is not. *)
Theorem update_tac_activity_spec :
  forall (imp : Imports) (s : Source) (rti : RunTimingIntervals)
         (ts acts : list Q),
    tac_times s = Some ts -> tac_activities s = Some acts ->
    (List.length ts <> List.length acts -> is_fatal (initialize imp s rti))
    /\ (List.length ts = List.length acts -> ts <> [] ->
        exists t0 a0,
          first ts = Ok t0 /\ first acts = Ok a0
          /\ (let overwrite s :=
                SetTAC ts acts (set_activity a0 (set_start_time (Some t0) s)) in
              update_tac_activity s = Ok (overwrite s)
              /\ start_time (overwrite s) = Some t0
              /\ activity (overwrite s) = a0
              /\ initialize imp s rti
                 = (s1 <- initialize_energy imp s ;;
                    s3 <- initialize_direction_and_base imp (overwrite s1) rti ;;
                    s4 <- resolve_n_activity s3 ;;
                    warn_confine s4))
          /\ (base_keeps imp start_time -> base_keeps imp activity ->
              forall s', initialize imp s rti = Ok s' ->
                start_time s' = Some t0
                /\ (activity s' = a0
                    \/ (a0 <= 0 /\ 0 < n s' /\ activity s' = 0))
                /\ (0 < a0 -> activity s' = a0 /\ n s' = 0))).
Proof.
  intros imp s rti ts acts Ht Ha. split.
  - intros Hlen. unfold initialize.
    destruct (initialize_energy imp s) as [s1 | m | e] eqn:E; cbn [bind].
    + destruct (initialize_energy_tac imp s s1 E) as (Ht1 & Ha1 & _).
      rewrite (update_tac_activity_mismatch s1 ts acts)
        by (try rewrite Ht1; try rewrite Ha1; assumption).
      cbn [bind]. eexists. reflexivity.
    + eexists. reflexivity.
    + exfalso. exact (initialize_energy_not_raised imp s e E).
  - intros Hlen Hne.
    destruct ts as [ | t0 ts]; [congruence | ].
    destruct acts as [ | a0 acts]; [discriminate Hlen | ].
    injection Hlen as Hlen.
    exists t0, a0. cbn [first].
    split; [reflexivity | ]. split; [reflexivity | ]. split.
    + repeat split.
      * apply update_tac_activity_overwrite; assumption.
      * unfold initialize.
        destruct (initialize_energy imp s) as [s1 | m | e] eqn:E;
          cbn [bind]; try reflexivity.
        destruct (initialize_energy_tac imp s s1 E) as (Ht1 & Ha1 & _).
        rewrite (update_tac_activity_overwrite s1 t0 a0 ts acts)
          by (try rewrite Ht1; try rewrite Ha1; assumption).
        reflexivity.
    + intros Kst Kact s' H.
      apply initialize_Ok in H.
      destruct H as (s1 & s2 & s3 & s4 & H1 & H2 & H3 & H4 & H5).
      destruct (initialize_energy_tac imp s s1 H1) as (Ht1 & Ha1 & _).
      rewrite (update_tac_activity_overwrite s1 t0 a0 ts acts) in H2
        by (try rewrite Ht1; try rewrite Ha1; assumption).
      injection H2 as <-.
      pose proof (Kst _ _ _ H3) as Est. pose proof (Kact _ _ _ H3) as Eact.
      destruct (force_life_time_keeps
                  (SetTAC (t0 :: ts) (a0 :: acts)
                     (set_activity a0 (set_start_time (Some t0) s1))))
        as (Fst & Fact & _).
      rewrite Fst in Est. rewrite Fact in Eact. cbn in Est, Eact.
      pose proof (resolve_n_activity_cases s3) as C. rewrite H4 in C.
      destruct C as (Hboth & _ & Hs4). rewrite Eact in Hs4.
      apply warn_confine_Ok in H5.
      assert (E' : start_time s' = start_time s4 /\ activity s' = activity s4
                   /\ n s' = n s4)
        by (destruct H5 as [-> | ->]; cbn; auto).
      destruct E' as (-> & -> & ->).
      destruct Hs4 as [[Hpos ->] | [(Hle & Hpos & ->) | (Hle & Hle' & ->)]];
        cbn; rewrite ?Est, ?Eact.
      * repeat split; auto.
      * split; [reflexivity | ]. split; [right; auto | ].
        intros Ha0. exfalso. exact (Qlt_not_le _ _ Ha0 Hle).
      * split; [reflexivity | ]. split; [left; reflexivity | ].
        intros Ha0. exfalso. exact (Qlt_not_le _ _ Ha0 Hle).
Qed.

Lemma update_tac_activity_spec_witness :
  let s := Sample.with_tac (Some [0; 1; 2]) (Some [10; 5; 2])
             (Sample.source 0 3) in
  exists s', initialize Sample.imports s [] = Ok s'
             /\ start_time s' = Some 0 /\ activity s' = 10.
Proof.
  intros s.
  assert (H : exists s', initialize Sample.imports s [] = Ok s')
    by (eexists; reflexivity).
  destruct H as (s' & H). exists s'. split; [exact H | ].
  destruct (update_tac_activity_spec Sample.imports s []
              [0; 1; 2] [10; 5; 2] eq_refl eq_refl) as [_ Hspec].
  destruct (Hspec eq_refl ltac:(discriminate))
    as (t0 & a0 & Ht & Ha & _ & Hinit).
  injection Ht as <-. injection Ha as <-.
  destruct (Hinit ltac:(intros x rti y E; injection E as <-; reflexivity)
              ltac:(intros x rti y E; injection E as <-; reflexivity)
              s' H) as (Hst & _ & Hact).
  split; [exact Hst | ]. apply Hact. reflexivity.
Defined.

(** With a first activity that is negative and a positive [n], the activity
    after [initialize] is zero, not the first sample of the curve. *)
Remark tac_negative_first_activity :
  let s := Sample.with_tac (Some [0; 1]) (Some [-1; 5])
             (Sample.source 1000 3) in
  exists s', initialize Sample.imports s [] = Ok s'
             /\ start_time s' = Some 0 /\ activity s' = 0.
Proof.
  cbv zeta. eexists. split; [reflexivity | ]. split; reflexivity.
Qed.

(** Two empty lists have equal length, and [update_tac_activity] does not
    succeed on them: [tac_times[0]] raises [IndexError], also from
    [initialize], which succeeds on the same source without the curve. *)
Lemma update_tac_activity_empty_curve :
  let s := Sample.with_tac (Some []) (Some []) (Sample.source 0 3) in
  tac_times s = Some [] /\ tac_activities s = Some []
  /\ update_tac_activity s = Raised IndexError
  /\ initialize Sample.imports s [] = Raised IndexError
  /\ is_ok (initialize Sample.imports (Sample.source 0 3) []).
Proof.
  cbv zeta. repeat split. eexists. reflexivity.
Qed.

(** ** The spectrum type *)

Lemma initialize_energy_bad_spectrum
    (imp : Imports) (s : Source) (e : Energy.t) (st : string) :
  energy s = IsBox e -> Energy.spectrum_type e = Some st ->
  str_in st valid_spectrum_types = false ->
  is_fatal (initialize_energy imp s).
Proof.
  intros He Hst Hin.
  unfold initialize_energy, check_boxes.
  destruct (position s); [ | eexists; reflexivity].
  destruct (direction s); [ | eexists; reflexivity].
  rewrite He. cbn [bind]. unfold force_back_to_back, energy_box.
  destruct (String.eqb (particle s) "back_to_back");
    [rewrite He | ]; cbn [bind].
  - unfold check_energy_type, energy_box. cbn [energy set_energy bind].
    destruct (negb _); [eexists; reflexivity | ]. cbn [bind].
    unfold check_spectrum_type, energy_box.
    cbn [energy set_energy bind Energy.spectrum_type Energy.set_mono
         Energy.set_type].
    rewrite Hst, Hin. eexists; reflexivity.
  - unfold check_energy_type, energy_box. rewrite He. cbn [bind].
    destruct (negb _); [eexists; reflexivity | ]. cbn [bind].
    unfold check_spectrum_type, energy_box. rewrite He. cbn [bind].
    rewrite Hst, Hin. eexists; reflexivity.
Qed.

(** C10: with [energy.spectrum_type] at [None] the spectrum type check does
    nothing and [initialize] proceeds with the same source; with a value,
    the check passes for "discrete", "histogram" and "interpolated" and is
    fatal for anything else, and so is [initialize]. *)
Theorem spectrum_type_check :
  forall (imp : Imports) (s : Source) (rti : RunTimingIntervals)
         (e : Energy.t),
    energy s = IsBox e ->
    (Energy.spectrum_type e = None -> check_spectrum_type s = Ok s)
    /\ (forall st, Energy.spectrum_type e = Some st ->
          (st = "discrete" \/ st = "histogram" \/ st = "interpolated" ->
           check_spectrum_type s = Ok s)
          /\ (~ (st = "discrete" \/ st = "histogram" \/ st = "interpolated") ->
              check_spectrum_type s = Fatal (UnknownSpectrumType st (name s))
              /\ is_fatal (initialize imp s rti))).
Proof.
  intros imp s rti e He. split.
  - intros Hn. unfold check_spectrum_type, energy_box.
    rewrite He. cbn [bind]. rewrite Hn. reflexivity.
  - intros st Hst. split.
    + intros Hin. unfold check_spectrum_type, energy_box.
      rewrite He. cbn [bind]. rewrite Hst.
      destruct Hin as [-> | [-> | ->]]; reflexivity.
    + intros Hout.
      assert (Hin : str_in st valid_spectrum_types = false).
      { destruct (str_in st valid_spectrum_types) eqn:E; [ | reflexivity].
        apply str_in_In in E. exfalso. apply Hout.
        cbn in E. intuition auto. }
      split.
      * unfold check_spectrum_type, energy_box.
        rewrite He. cbn [bind]. rewrite Hst, Hin. reflexivity.
      * unfold initialize. apply bind_Fatal.
        exact (initialize_energy_bad_spectrum imp s e st He Hst Hin).
Qed.

Lemma spectrum_type_check_witness :
  let s := Sample.with_spectrum_type (Some "continuous")
             (Sample.source 1000 0) in
  check_spectrum_type s = Fatal (UnknownSpectrumType "continuous" "src")
  /\ is_fatal (initialize Sample.imports s [])
  /\ check_spectrum_type (Sample.source 1000 0) = Ok (Sample.source 1000 0).
Proof.
  intros s.
  destruct (spectrum_type_check Sample.imports s [] _ eq_refl) as [_ H].
  destruct (H "continuous" eq_refl) as [_ H'].
  destruct H' as [H1 H2].
  - intros [E | [E | E]]; discriminate E.
  - split; [exact H1 | split; [exact H2 | ]].
    apply (spectrum_type_check Sample.imports (Sample.source 1000 0) []
             Energy.default eq_refl).
    reflexivity.
Defined.

(** ** The back to back source *)

(** C3: with [particle == "back_to_back"], a successful [initialize] leaves
    [energy.type == "mono"] and [energy.mono == 511 keV], whatever the
    energy was before; [SourceBase.initialize] is taken not to touch
    [energy]. *)
Theorem back_to_back_energy :
  forall (imp : Imports) (s : Source) (rti : RunTimingIntervals)
         (s' : Source),
    base_keeps imp energy ->
    particle s = "back_to_back" ->
    initialize imp s rti = Ok s' ->
    exists e', energy s' = IsBox e'
               /\ Energy.type e' = "mono"
               /\ Energy.mono e' = 511 * keV imp.
Proof.
  intros imp s rti s' Hbase Hp H.
  apply initialize_Ok in H.
  destruct H as (s1 & s2 & s3 & s4 & H1 & H2 & H3 & H4 & H5).
  destruct (initialize_energy_back_to_back imp s s1 Hp H1)
    as (e' & He' & Hty & Hmono).
  exists e'. split; [ | auto].
  apply warn_confine_keeps in H5. destruct H5 as (-> & _).
  apply resolve_n_activity_keeps in H4. destruct H4 as (-> & _).
  rewrite (Hbase _ _ _ H3), force_life_time_energy.
  apply update_tac_activity_keeps in H2. destruct H2 as (-> & _).
  exact He'.
Qed.

Lemma back_to_back_energy_witness :
  let s := set_particle "back_to_back"
             (Sample.with_energy_type "gauss" (Sample.source 1000 0)) in
  exists s' e',
    initialize Sample.imports s [] = Ok s'
    /\ energy s' = IsBox e'
    /\ Energy.type e' = "mono" /\ Energy.mono e' = 511 * (1 # 1000).
Proof.
  intros s.
  assert (H : exists s', initialize Sample.imports s [] = Ok s')
    by (eexists; reflexivity).
  destruct H as (s' & H). exists s'.
  destruct (back_to_back_energy Sample.imports s [] s') as (e' & He).
  - intros x rti y E. injection E as <-. reflexivity.
  - reflexivity.
  - exact H.
  - exists e'. split; [exact H | exact He].
Defined.

(** ** Half life and particle life time *)

Lemma force_life_time_cases (s : Source) :
  (0 < half_life s -> user_particle_life_time s < 0 ->
   force_life_time s = set_user_particle_life_time 0 s)
  /\ (half_life s <= 0 \/ 0 <= user_particle_life_time s ->
      force_life_time s = s).
Proof.
  unfold force_life_time. split.
  - intros Hh Hl. apply Qgtb_true in Hh, Hl. rewrite Hh, Hl. reflexivity.
  - intros [Hh | Hl].
    + apply Qgtb_false in Hh. rewrite Hh. reflexivity.
    + apply Qgtb_false in Hl. rewrite Hl.
      destruct (half_life s >? 0); reflexivity.
Qed.

(** C8: after a successful [initialize], [user_particle_life_time] is zero
    if [half_life > 0] and the user left it negative; if [half_life] is not
    positive, or the life time was not negative, it is what the user set.
    [SourceBase.initialize] is taken not to touch it. *)
Theorem half_life_forces_life_time :
  forall (imp : Imports) (s : Source) (rti : RunTimingIntervals)
         (s' : Source),
    base_keeps imp user_particle_life_time ->
    initialize imp s rti = Ok s' ->
    (0 < half_life s -> user_particle_life_time s < 0 ->
     user_particle_life_time s' = 0)
    /\ (half_life s <= 0 \/ 0 <= user_particle_life_time s ->
        user_particle_life_time s' = user_particle_life_time s).
Proof.
  intros imp s rti s' Hbase H.
  apply initialize_Ok in H.
  destruct H as (s1 & s2 & s3 & s4 & H1 & H2 & H3 & H4 & H5).
  apply warn_confine_keeps in H5. destruct H5 as (_ & -> & _).
  apply resolve_n_activity_keeps in H4. destruct H4 as (_ & ->).
  rewrite (Hbase _ _ _ H3).
  apply update_tac_activity_keeps in H2. destruct H2 as (_ & Hh2 & Hl2 & _).
  assert (Hs1 : half_life s1 = half_life s
                /\ user_particle_life_time s1 = user_particle_life_time s).
  { apply initialize_energy_frame in H1. unfold outside_energy in H1.
    inversion H1. auto. }
  destruct Hs1 as [Hh1 Hl1]. rewrite Hl1 in Hl2. rewrite Hh1 in Hh2.
  destruct (force_life_time_cases s2) as [F1 F2].
  rewrite Hh2, Hl2 in F1, F2. split.
  - intros Hh Hl. rewrite (F1 Hh Hl). reflexivity.
  - intros Hor. rewrite (F2 Hor). exact Hl2.
Qed.

Lemma half_life_forces_life_time_witness :
  let s := Sample.with_half_life 6586 (Sample.source 0 1000) in
  exists s', initialize Sample.imports s [] = Ok s'
             /\ user_particle_life_time s = -1
             /\ user_particle_life_time s' = 0.
Proof.
  intros s.
  assert (H : exists s', initialize Sample.imports s [] = Ok s')
    by (eexists; reflexivity).
  destruct H as (s' & H). exists s'.
  split; [exact H | split; [reflexivity | ]].
  apply (half_life_forces_life_time Sample.imports s [] s').
  - intros x rti y E. injection E as <-. reflexivity.
  - exact H.
  - reflexivity.
  - reflexivity.
Defined.

(** ** The order of the checks *)

Lemma back_to_back_energy_part (imp : Imports) (s : Source) :
  check_boxes s = Ok s -> particle s = "back_to_back" ->
  exists e,
    energy s = IsBox e
    /\ initialize_energy imp s
       = check_spectrum_type
           (set_energy
              (IsBox (Energy.set_mono (511 * keV imp)
                        (Energy.set_type "mono" e))) s).
Proof.
  intros Hbox Hp.
  destruct (check_boxes_Ok s s Hbox) as (_ & _ & _ & (e & He)).
  exists e. split; [exact He | ].
  unfold initialize_energy. rewrite Hbox. cbn [bind].
  unfold force_back_to_back, energy_box. rewrite Hp, He.
  cbn [String.eqb Ascii.eqb Bool.eqb bind].
  unfold check_energy_type, energy_box. cbn [energy set_energy bind].
  change (str_in _ (energy_types imp)) with true. cbn [negb bind].
  destruct (check_spectrum_type _) as [s2 | m | ex] eqn:E; cbn [bind];
    try reflexivity.
  unfold check_spectrum_type, energy_box in E. cbn [energy set_energy bind] in E.
  assert (E2 : particle s2 = "back_to_back").
  { destruct (Energy.spectrum_type _); [destruct (negb _) | ];
      try discriminate E; injection E as <-; exact Hp. }
  unfold beta_plus_spectrum. rewrite E2. reflexivity.
Qed.

Lemma check_spectrum_type_fatal (s : Source) (m : FatalMsg) :
  check_spectrum_type s = Fatal m ->
  exists st, m = UnknownSpectrumType st (name s).
Proof.
  unfold check_spectrum_type, energy_box. intros H.
  destruct (energy s); cbn [bind] in H; [ | discriminate H].
  destruct (Energy.spectrum_type b) as [st | ]; [ | discriminate H].
  destruct (negb _); [ | discriminate H].
  injection H as <-. exists st. reflexivity.
Qed.

Lemma initialize_checks_run
    (imp : Imports) (s s2 : Source) (rti : RunTimingIntervals) :
  initialize_checks imp s = Ok s2 ->
  initialize imp s rti
  = (s3 <- SourceBase_initialize imp (force_life_time s2) rti ;;
     s4 <- resolve_n_activity s3 ;;
     warn_confine s4).
Proof.
  unfold initialize_checks. intros H.
  apply bind_Ok_inv in H. destruct H as (s1 & H1 & H).
  apply bind_Ok_inv in H. destruct H as (s1' & H2 & H).
  apply bind_Ok_inv in H. destruct H as (s1'' & H3 & H).
  pose proof (check_histogram_Ok _ _ H3) as ->.
  pose proof (check_direction_type_Ok _ _ H) as ->.
  unfold initialize. rewrite H1. cbn [bind]. rewrite H2. cbn [bind].
  unfold initialize_direction_and_base. rewrite H3. cbn [bind].
  rewrite H. reflexivity.
Qed.

Lemma update_tac_activity_fatal (s : Source) (m : FatalMsg) :
  update_tac_activity s = Fatal m -> m = TacSizeMismatch (name s).
Proof.
  unfold update_tac_activity. intros H.
  destruct (tac_times s) as [[ | t0 ts] | ];
    destruct (tac_activities s) as [[ | a0 acts] | ];
    cbn in H; try discriminate H;
    try (destruct (Nat.eqb (List.length ts) (List.length acts));
         cbn in H; try discriminate H);
    injection H as <-; reflexivity.
Qed.

Lemma check_histogram_fatal (s : Source) (m : FatalMsg) :
  check_histogram s = Fatal m -> m = HistogramLengthMismatch (name s).
Proof.
  unfold check_histogram, energy_box. intros H.
  destruct (energy s) as [e | ]; cbn [bind] in H; [ | discriminate H].
  destruct (String.eqb (Energy.type e) "histogram"); [ | discriminate H].
  destruct (Energy.histogram_weight e) as [w | ]; cbn in H;
    [ | discriminate H].
  destruct (Energy.histogram_energy e) as [h | ]; cbn in H;
    [ | discriminate H].
  destruct (negb _); [ | discriminate H].
  injection H as <-. reflexivity.
Qed.

Lemma check_direction_type_fatal (s : Source) (m : FatalMsg) :
  check_direction_type s = Fatal m ->
  exists t, m = UnknownDirectionType t (name s).
Proof.
  unfold check_direction_type, direction_box. intros H.
  destruct (direction s) as [d | ]; cbn [bind] in H; [ | discriminate H].
  destruct (negb _); [ | discriminate H].
  injection H as <-. eauto.
Qed.

Lemma initialize_fatal_origin
    (imp : Imports) (s : Source) (rti : RunTimingIntervals) (m : FatalMsg) :
  initialize imp s rti = Fatal m ->
  initialize_energy imp s = Fatal m
  \/ (exists nm, m = TacSizeMismatch nm)
  \/ (exists nm, m = HistogramLengthMismatch nm)
  \/ (exists t nm, m = UnknownDirectionType t nm)
  \/ m = BothNAndActivity \/ m = NeitherNNorActivity
  \/ (exists s2, initialize_checks imp s = Ok s2
                 /\ SourceBase_initialize imp (force_life_time s2) rti
                    = Fatal m).
Proof.
  unfold initialize, initialize_checks, initialize_direction_and_base.
  intros H.
  destruct (initialize_energy imp s) as [s1 | m1 | e1]; cbn [bind] in *;
    [ | left; exact H | discriminate H].
  destruct (update_tac_activity s1) as [s2 | m2 | e2] eqn:E2;
    cbn [bind] in *; [ | | discriminate H].
  2:{ injection H as <-. right; left.
      exists (name s1). exact (update_tac_activity_fatal s1 m2 E2). }
  destruct (check_histogram s2) as [s3 | m3 | e3] eqn:E3;
    cbn [bind] in *; [ | | discriminate H].
  2:{ injection H as <-. right; right; left.
      exists (name s2). exact (check_histogram_fatal s2 m3 E3). }
  destruct (check_direction_type s3) as [s4 | m4 | e4] eqn:E4;
    cbn [bind] in *; [ | | discriminate H].
  2:{ injection H as <-. right; right; right; left.
      destruct (check_direction_type_fatal s3 m4 E4) as (t & E).
      exists t, (name s3). exact E. }
  pose proof (check_direction_type_Ok _ _ E4) as ->.
  destruct (SourceBase_initialize imp (force_life_time s3) rti)
    as [s5 | m5 | e5] eqn:E5; cbn [bind] in *; [ | | discriminate H].
  2:{ injection H as <-. do 6 right. exists s3. auto. }
  pose proof (resolve_n_activity_cases s5) as C.
  destruct (resolve_n_activity s5) as [s6 | m6 | e6]; cbn [bind] in *.
  - exfalso. apply (warn_confine_not_fatal s6). exists m. exact H.
  - injection H as <-.
    destruct C as [(_ & _ & ->) | (_ & _ & ->)]; auto 10.
  - contradiction.
Qed.

(** C5, in the order of the code.  The back to back override comes first:
    for a back to back source the [energy.type] and [energy.mono] set by
    the user play no part in [initialize], and the membership check on
    [energy.type] is never what stops it.  For any other particle an
    unknown [energy.type] is the first fatal error after the [Box] checks.
    The membership check on [direction.type] comes after the time activity
    curve and the histogram check, and before [SourceBase.initialize]; the
    resolution of [n] and [activity] comes last, on what
    [SourceBase.initialize] returns. *)
Theorem initialize_order :
  forall (imp : Imports) (s : Source) (rti : RunTimingIntervals),
    check_boxes s = Ok s ->
    (particle s = "back_to_back" ->
     (forall e ty m, energy s = IsBox e ->
        initialize imp
          (set_energy (IsBox (Energy.set_mono m (Energy.set_type ty e))) s)
          rti
        = initialize imp s rti)
     /\ (forall t nm,
           initialize imp s rti = Fatal (UnknownEnergyType t nm) ->
           exists s2,
             initialize_checks imp s = Ok s2
             /\ SourceBase_initialize imp (force_life_time s2) rti
                = Fatal (UnknownEnergyType t nm)))
    /\ (particle s <> "back_to_back" ->
        forall e, energy s = IsBox e ->
          str_in (Energy.type e) (energy_types imp) = false ->
          initialize imp s rti
          = Fatal (UnknownEnergyType (Energy.type e) (name s)))
    /\ (forall d, direction s = IsBox d ->
          str_in (Direction.type d) direction_types = false ->
          initialize imp s rti
          = (s1 <- initialize_energy imp s ;;
             s2 <- update_tac_activity s1 ;;
             s3 <- check_histogram s2 ;;
             Fatal (UnknownDirectionType (Direction.type d) (name s))))
    /\ (forall s2, initialize_checks imp s = Ok s2 ->
          initialize imp s rti
          = (s3 <- SourceBase_initialize imp (force_life_time s2) rti ;;
             s4 <- resolve_n_activity s3 ;;
             warn_confine s4)).
Proof.
  intros imp s rti Hbox. split; [ | split; [ | split]].
  - intros Hp. split.
    + intros e ty m He.
      assert (Hbox' : check_boxes
                        (set_energy
                           (IsBox (Energy.set_mono m (Energy.set_type ty e)))
                           s)
                      = Ok (set_energy
                              (IsBox (Energy.set_mono m
                                        (Energy.set_type ty e))) s)).
      { destruct (check_boxes_Ok s s Hbox) as (_ & (p & Hpos) & (d & Hd) & _).
        unfold check_boxes. cbn [position direction energy set_energy].
        rewrite Hpos, Hd. reflexivity. }
      destruct (back_to_back_energy_part imp _ Hbox' Hp) as (e1 & He1 & E1).
      destruct (back_to_back_energy_part imp s Hbox Hp) as (e2 & He2 & E2).
      cbn [energy set_energy] in He1. injection He1 as <-.
      rewrite He in He2. injection He2 as <-.
      unfold initialize. rewrite E1, E2. reflexivity.
    + intros t nm H.
      destruct (initialize_fatal_origin imp s rti _ H)
        as [E | [(x & E) | [(x & E) | [(x & y & E) | [E | [E | E]]]]]];
        try discriminate E; [ | exact E].
      exfalso.
      destruct (back_to_back_energy_part imp s Hbox Hp) as (e & _ & E1).
      rewrite E1 in E. apply check_spectrum_type_fatal in E.
      destruct E as (st & E). discriminate E.
  - intros Hp e He Hin.
    unfold initialize, initialize_energy. rewrite Hbox. cbn [bind].
    unfold force_back_to_back.
    apply String.eqb_neq in Hp. rewrite Hp. cbn [bind].
    unfold check_energy_type, energy_box. rewrite He. cbn [bind].
    rewrite Hin. reflexivity.
  - intros d Hd Hin. unfold initialize.
    destruct (initialize_energy imp s) as [s1 | | ] eqn:E1; cbn [bind];
      try reflexivity.
    apply initialize_energy_frame in E1. unfold outside_energy in E1.
    assert (Hs1 : direction s1 = direction s /\ name s1 = name s)
      by (inversion E1; auto).
    destruct Hs1 as [Hd1 Hn1].
    destruct (update_tac_activity s1) as [s2 | | ] eqn:E2; cbn [bind];
      try reflexivity.
    apply update_tac_activity_keeps in E2.
    destruct E2 as (_ & _ & _ & _ & Hn2 & Hd2).
    unfold initialize_direction_and_base.
    destruct (check_histogram s2) as [s3 | | ] eqn:E3; cbn [bind];
      try reflexivity.
    apply check_histogram_Ok in E3. subst s3.
    unfold check_direction_type, direction_box.
    rewrite Hd2, Hd1, Hd. cbn [bind]. rewrite Hin. cbn [negb bind].
    rewrite Hn2, Hn1. reflexivity.
  - intros s2 H. exact (initialize_checks_run imp s s2 rti H).
Qed.

Lemma initialize_order_witness :
  let s := set_particle "back_to_back" (Sample.source 1000 0) in
  initialize Sample.imports
    (set_energy (IsBox (Energy.set_mono 2 (Energy.set_type "bogus"
                                             Energy.default))) s) []
  = initialize Sample.imports s [].
Proof.
  intros s.
  destruct (initialize_order Sample.imports s [] eq_refl) as [H _].
  destruct (H eq_refl) as [H1 _].
  exact (H1 Energy.default "bogus" 2 eq_refl).
Defined.

(** A back to back source whose [energy.type] is in no list passes
    [initialize]: the override has replaced the type before it is checked. *)
Lemma back_to_back_invalid_energy_type_passes :
  let s := set_particle "back_to_back"
             (Sample.with_energy_type "bogus" (Sample.source 1000 0)) in
  str_in "bogus" (energy_types Sample.imports) = false
  /\ energy s = IsBox (Energy.set_type "bogus" Energy.default)
  /\ is_ok (initialize Sample.imports s [])
  /\ ~ is_fatal (initialize Sample.imports s []).
Proof.
  cbv zeta. split; [reflexivity | ]. split; [reflexivity | ]. split.
  - eexists. reflexivity.
  - intros [m H]. discriminate H.
Qed.

(** ** The tabulated beta plus spectra *)









(** ** n and activity *)

(** Without a time activity curve, and with a [SourceBase.initialize] that
    keeps them, the values that reach the resolution are the user's. *)
Lemma initialize_validation_user_values
    (imp : Imports) (s : Source) (rti : RunTimingIntervals) (s3 : Source) :
  base_keeps imp n -> base_keeps imp activity ->
  tac_times s = None -> tac_activities s = None ->
  initialize_validation imp s rti = Ok s3 ->
  n s3 = n s /\ activity s3 = activity s.
Proof.
  intros Kn Ka Ht Ha H. unfold initialize_validation in H.
  apply bind_Ok_inv in H. destruct H as (s1 & H1 & H).
  apply bind_Ok_inv in H. destruct H as (s2 & H2 & H).
  apply initialize_direction_and_base_Ok in H. destruct H as (_ & _ & H).
  rewrite (Kn _ _ _ H), (Ka _ _ _ H).
  assert (F : n (force_life_time s2) = n s2
              /\ activity (force_life_time s2) = activity s2).
  { unfold force_life_time. destruct (half_life s2 >? 0); [ | auto].
    destruct (user_particle_life_time s2 <? 0); auto. }
  destruct F as [-> ->].
  apply initialize_energy_frame in H1. unfold outside_energy in H1.
  assert (Hs1 : tac_times s1 = None /\ tac_activities s1 = None
                /\ n s1 = n s /\ activity s1 = activity s)
    by (inversion H1; repeat split; congruence).
  destruct Hs1 as (Ht1 & Ha1 & <- & <-).
  apply update_tac_activity_Ok in H2.
  destruct H2 as [(_ & _ & ->) | (t0 & ts & a0 & acts & Ht2 & _)].
  - auto.
  - congruence.
Qed.



(** The same resolution in terms of what the user supplied, when no time
    activity curve replaces the activity. *)
Corollary n_activity_exclusive_user :
  forall (imp : Imports) (s : Source) (rti : RunTimingIntervals)
         (s' : Source),
    base_keeps imp n -> base_keeps imp activity ->
    tac_times s = None -> tac_activities s = None ->
    0 <= n s -> 0 <= activity s ->
    initialize imp s rti = Ok s' ->
    (n s' = 0 /\ 0 < activity s' /\ activity s' = activity s)
    \/ (0 < n s' /\ n s' = n s /\ activity s' = 0).
Proof.
  intros imp s rti s' Kn Ka Ht Hta Hn Ha H.
  rewrite initialize_split in H.
  apply bind_Ok_inv in H. destruct H as (s3 & Hv & H).
  apply bind_Ok_inv in H. destruct H as (s4 & Hr & H).
  destruct (initialize_validation_user_values imp s rti s3 Kn Ka Ht Hta Hv)
    as [En Ea].
  apply warn_confine_keeps in H. destruct H as (_ & _ & -> & ->).
  pose proof (resolve_n_activity_cases s3) as C. rewrite Hr in C.
  destruct C as (_ & Hnone & Hs4).
  destruct Hs4 as [[Hpos ->] | [(Hle & Hpos & ->) | (Hle & Hle' & ->)]];
    cbn; rewrite ?En, ?Ea in *.
  - left. auto.
  - right. auto.
  - exfalso. apply Hnone. split; apply Qle_antisym; assumption.
Qed.


(** [check_ui_activity] is the resolution of [initialize], on [ui]. *)
Remark check_ui_activity_resolve (self ui : Source) :
  check_ui_activity self ui = resolve_n_activity ui.
Proof. reflexivity. Qed.

(** ** Decimal numbers *)

Lemma digits_value_uint (d : Decimal.uint) (acc : nat) :
  digits_value (NilEmpty.string_of_uint d) (Z.of_nat acc) true
  = Some (Z.of_nat (Nat.of_uint_acc d acc)).
Proof.
  revert acc.
  induction d; intros acc; cbn [NilEmpty.string_of_uint Nat.of_uint_acc];
    [reflexivity | .. ];
    cbn [digits_value]; change (digit_of _) with (Some 0%Z) || idtac;
    match goal with
    | |- context [digit_of ?c] =>
        let v := eval vm_compute in (digit_of c) in
        change (digit_of c) with v
    end;
    cbv iota; rewrite <- IHd; f_equal;
    rewrite Nat.tail_mul_spec; lia.
Qed.

Lemma uint_digits (d : Decimal.uint) :
  all_chars is_digit (NilEmpty.string_of_uint d) = true.
Proof. induction d; cbn; auto. Qed.

Lemma to_uint_not_Nil (k : nat) : Nat.to_uint k <> Decimal.Nil.
Proof.
  intros E. pose proof (Unsigned.of_to k) as H. rewrite E in H.
  cbn in H. subst k. discriminate E.
Qed.

Lemma decimal_digits (k : nat) : all_chars is_digit (decimal k) = true.
Proof.
  unfold decimal. destruct (Nat.to_uint k) eqn:E; try reflexivity;
    rewrite <- E; pose proof (uint_digits (Nat.to_uint k)) as H;
    rewrite E in *; exact H.
Qed.

Lemma decimal_not_empty (k : nat) : decimal k <> "".
Proof.
  unfold decimal. pose proof (to_uint_not_Nil k).
  destruct (Nat.to_uint k); try congruence; discriminate.
Qed.

Lemma digits_value_decimal (k : nat) :
  digits_value (decimal k) 0%Z false = Some (Z.of_nat k).
Proof.
  unfold decimal. pose proof (to_uint_not_Nil k) as Hn.
  pose proof (Unsigned.of_to k) as Hk. unfold Nat.of_uint in Hk.
  pose proof (digits_value_uint (Nat.to_uint k) 0) as H.
  rewrite Hk in H.
  destruct (Nat.to_uint k) eqn:E; try congruence; exact H.
Qed.

Lemma all_chars_impl (f g : ascii -> bool) (s : string) :
  (forall c, f c = true -> g c = true) ->
  all_chars f s = true -> all_chars g s = true.
Proof.
  intros Hfg. induction s as [ | c rest IH]; cbn; [reflexivity | ].
  intros H. apply andb_true_iff in H. destruct H as [H1 H2].
  rewrite (Hfg c H1), (IH H2). reflexivity.
Qed.

Lemma all_chars_app (f : ascii -> bool) (s t : string) :
  all_chars f (s ++ t) = all_chars f s && all_chars f t.
Proof.
  induction s as [ | c rest IH]; cbn; [reflexivity | ].
  rewrite IH. apply andb_assoc.
Qed.

Lemma all_chars_rev_onto (f : ascii -> bool) (s acc : string) :
  all_chars f (string_rev_onto s acc) = all_chars f s && all_chars f acc.
Proof.
  revert acc. induction s as [ | c rest IH]; intros acc; cbn;
    [reflexivity | ].
  rewrite IH. cbn. rewrite andb_assoc, (andb_comm (all_chars f rest)).
  rewrite <- andb_assoc. reflexivity.
Qed.

Lemma string_rev_onto_twice (s a b : string) :
  string_rev_onto (string_rev_onto s a) b = string_rev_onto a (s ++ b).
Proof.
  revert a b. induction s as [ | c rest IH]; intros a b; cbn;
    [reflexivity | ].
  rewrite IH. reflexivity.
Qed.

Lemma string_rev_involutive (s : string) : string_rev (string_rev s) = s.
Proof.
  unfold string_rev. rewrite string_rev_onto_twice. cbn.
  induction s as [ | c rest IH]; cbn; [reflexivity | ].
  rewrite IH. reflexivity.
Qed.

Lemma lstrip_no_space (s : string) :
  all_chars (fun c => negb (is_space c)) s = true -> lstrip s = s.
Proof.
  destruct s as [ | c rest]; cbn; [reflexivity | ].
  intros H. apply andb_true_iff in H. destruct H as [H _].
  apply negb_true_iff in H. rewrite H. reflexivity.
Qed.

Lemma strip_no_space (s : string) :
  all_chars (fun c => negb (is_space c)) s = true -> strip s = s.
Proof.
  intros H. unfold strip. rewrite (lstrip_no_space s H).
  rewrite lstrip_no_space.
  - apply string_rev_involutive.
  - unfold string_rev. rewrite all_chars_rev_onto, H. reflexivity.
Qed.

Lemma is_digit_cases (c : ascii) :
  is_digit c = true ->
  is_space c = false /\ not_space c = true
  /\ c <> "-"%char /\ c <> "+"%char.
Proof.
  destruct c as [[ | ] [ | ] [ | ] [ | ] [ | ] [ | ] [ | ] [ | ]];
    vm_compute; intros H; try discriminate H;
    repeat split; intros E; discriminate E.
Qed.

Lemma digits_no_space (s : string) :
  all_chars is_digit s = true -> all_chars not_space s = true.
Proof. apply all_chars_impl. intros c H. apply is_digit_cases, H. Qed.

Lemma split_sign_digit (c : ascii) (rest : string) :
  c <> "-"%char -> c <> "+"%char ->
  split_sign (String c rest) = (false, String c rest).
Proof.
  intros Hm Hp.
  destruct c as [[ | ] [ | ] [ | ] [ | ] [ | ] [ | ] [ | ] [ | ]];
    try reflexivity; congruence.
Qed.

Lemma count_digits_all (s : string) :
  all_chars is_digit s = true -> count_digits s = String.length s.
Proof.
  induction s as [ | c rest IH]; cbn [all_chars count_digits String.length];
    [reflexivity | ].
  intros H. apply andb_true_iff in H. destruct H as [H1 H2].
  unfold is_digit in H1. destruct (digit_of c); [ | discriminate H1].
  rewrite (IH H2). reflexivity.
Qed.

(** [int] of a string of at most [int_max_str_digits] digits is the value
    of its digits. *)
Lemma int_of_str_digits (s : string) :
  all_chars is_digit s = true ->
  (String.length s <= int_max_str_digits)%nat ->
  int_of_str s = match digits_value s 0%Z false with
                 | Some v => Ok v
                 | None => Raised ValueError
                 end.
Proof.
  intros H Hlen. unfold int_of_str. rewrite strip_no_space.
  - assert (Hs : split_sign s = (false, s)).
    { destruct s as [ | c rest]; [reflexivity | ].
      cbn in H. apply andb_true_iff in H. destruct H as [H _].
      destruct (is_digit_cases c H) as (_ & _ & Hm & Hp).
      apply split_sign_digit; assumption. }
    rewrite Hs. rewrite (count_digits_all s H).
    destruct (digits_value s 0%Z false); [ | reflexivity].
    apply Nat.ltb_ge in Hlen. rewrite Hlen. reflexivity.
  - revert H. apply all_chars_impl. intros c Hc.
    destruct (is_digit_cases c Hc) as (-> & _). reflexivity.
Qed.

Lemma int_of_str_decimal (k : nat) :
  (String.length (decimal k) <= int_max_str_digits)%nat ->
  int_of_str (decimal k) = Ok (Z.of_nat k).
Proof.
  intros Hlen. rewrite int_of_str_digits by (apply decimal_digits || exact Hlen).
  rewrite digits_value_decimal. reflexivity.
Qed.

(** ** Splitting *)

Lemma split_not_nil (sep : ascii) (s : string) : split sep s <> [].
Proof.
  induction s as [ | c rest IH]; cbn; [discriminate | ].
  destruct (Ascii.eqb c sep); [discriminate | ].
  destruct (split sep rest); [congruence | discriminate].
Qed.

Lemma split_no_sep (s : string) :
  all_chars not_space s = true -> split " "%char s = [s].
Proof.
  induction s as [ | c rest IH]; cbn; [reflexivity | ].
  intros H. apply andb_true_iff in H. destruct H as [H1 H2].
  unfold not_space in H1. apply negb_true_iff in H1. rewrite H1.
  rewrite (IH H2). reflexivity.
Qed.

Lemma split_word (w rest : string) :
  all_chars not_space w = true ->
  split " "%char (w ++ String " "%char rest) = w :: split " "%char rest.
Proof.
  induction w as [ | c w' IH]; cbn; [reflexivity | ].
  intros H. apply andb_true_iff in H. destruct H as [H1 H2].
  unfold not_space in H1. apply negb_true_iff in H1. rewrite H1.
  rewrite (IH H2). reflexivity.
Qed.

Lemma split_ion_particle3 (z a e : nat) :
  split " "%char (ion_particle3 z a e)
  = ["ion"; decimal z; decimal a; decimal e].
Proof.
  unfold ion_particle3.
  change ("ion " ++ decimal z ++ " " ++ decimal a ++ " " ++ decimal e)
    with ("ion" ++ String " "%char
            (decimal z ++ String " "%char
               (decimal a ++ String " "%char (decimal e)))).
  rewrite split_word by reflexivity.
  rewrite split_word by apply digits_no_space, decimal_digits.
  rewrite split_word by apply digits_no_space, decimal_digits.
  rewrite split_no_sep by apply digits_no_space, decimal_digits.
  reflexivity.
Qed.

Lemma split_ion_particle2 (z a : nat) :
  split " "%char (ion_particle2 z a) = ["ion"; decimal z; decimal a].
Proof.
  unfold ion_particle2.
  change ("ion " ++ decimal z ++ " " ++ decimal a)
    with ("ion" ++ String " "%char (decimal z ++ String " "%char (decimal a))).
  rewrite split_word by reflexivity.
  rewrite split_word by apply digits_no_space, decimal_digits.
  rewrite split_no_sep by apply digits_no_space, decimal_digits.
  reflexivity.
Qed.

(** ** The setter hook and the constructor on ion particles *)

(** X1: for all natural numbers Z, A and E whose decimal writing has at
    most [int_max_str_digits] digits, setting [particle] to 'ion Z A E'
    stores the three integers in the ion and returns the string
    unchanged. *)
Theorem setter_hook_ion_decimal :
  forall (self : Source) (z a e : nat),
    (String.length (decimal z) <= int_max_str_digits)%nat ->
    (String.length (decimal a) <= int_max_str_digits)%nat ->
    (String.length (decimal e) <= int_max_str_digits)%nat ->
    _setter_hook_generic_source_particle self (PyStr (ion_particle3 z a e))
    = Ok (set_ion (Ion.mk (PyInt (Z.of_nat z)) (PyInt (Z.of_nat a))
                     (PyInt (Z.of_nat e))) self,
          ion_particle3 z a e).
Proof.
  intros self z a e Hz Ha He. unfold _setter_hook_generic_source_particle.
  rewrite split_ion_particle3.
  change (startswith (ion_particle3 z a e) "ion") with true.
  cbn [negb List.length Nat.ltb Nat.leb word_at nth].
  rewrite (int_of_str_decimal z Hz), (int_of_str_decimal a Ha),
    (int_of_str_decimal e He).
  reflexivity.
Qed.

Lemma setter_hook_ion_decimal_witness :
  _setter_hook_generic_source_particle (Sample.source 1000 0)
    (PyStr (ion_particle3 27 60 0))
  = Ok (set_ion (Ion.mk (PyInt 27) (PyInt 60) (PyInt 0))
          (Sample.source 1000 0),
        "ion 27 60 0").
Proof.
  apply (setter_hook_ion_decimal (Sample.source 1000 0) 27 60 0);
    apply Nat.leb_le; reflexivity.
Defined.

(** X2: for Z and A of at most [int_max_str_digits] digits, 'ion Z A'
    stores Z and A and leaves [ion.E] as it was. *)
Theorem setter_hook_ion_two_numbers :
  forall (self : Source) (z a : nat),
    (String.length (decimal z) <= int_max_str_digits)%nat ->
    (String.length (decimal a) <= int_max_str_digits)%nat ->
    _setter_hook_generic_source_particle self (PyStr (ion_particle2 z a))
    = Ok (set_ion (Ion.mk (PyInt (Z.of_nat z)) (PyInt (Z.of_nat a))
                     (Ion.E (ion self))) self,
          ion_particle2 z a).
Proof.
  intros self z a Hz Ha. unfold _setter_hook_generic_source_particle.
  rewrite split_ion_particle2.
  change (startswith (ion_particle2 z a) "ion") with true.
  cbn [negb List.length Nat.ltb Nat.leb word_at nth].
  rewrite (int_of_str_decimal z Hz), (int_of_str_decimal a Ha).
  reflexivity.
Qed.

Lemma setter_hook_ion_two_numbers_witness :
  let self := set_ion (Ion.mk (PyInt 9) (PyInt 18) (PyInt 5))
                (Sample.source 1000 0) in
  _setter_hook_generic_source_particle self (PyStr (ion_particle2 8 16))
  = Ok (set_ion (Ion.mk (PyInt 8) (PyInt 16) (PyInt 5)) self, "ion 8 16").
Proof.
  intros self.
  apply (setter_hook_ion_two_numbers self 8 16); apply Nat.leb_le;
    reflexivity.
Defined.

(** X3: whenever the hook succeeds, its argument was a string, it returns
    that string, and the source differs from the one before in its ion
    only. *)
Theorem setter_hook_frame :
  forall (self : Source) (v : PyVal) (self' : Source) (p : string),
    _setter_hook_generic_source_particle self v = Ok (self', p) ->
    v = PyStr p /\ self' = set_ion (ion self') self.
Proof.
  intros self v self' p H. destruct self.
  unfold _setter_hook_generic_source_particle in H.
  destruct v as [z | q | ]; try discriminate H.
  destruct (negb (startswith q "ion")).
  - injection H as <- <-. auto.
  - repeat (match type of H with
            | context [int_of_str ?w] => destruct (int_of_str w)
            | context [Nat.ltb ?a ?b] => destruct (Nat.ltb a b)
            end; cbn [bind] in H; try discriminate H);
      injection H as <- <-; auto.
Qed.

Lemma setter_hook_frame_witness :
  let self := Sample.source 1000 0 in
  exists self', _setter_hook_generic_source_particle self (PyStr "ion 9 18")
                = Ok (self', "ion 9 18")
                /\ self' = set_ion (ion self') self.
Proof.
  intros self.
  assert (H : exists self',
             _setter_hook_generic_source_particle self (PyStr "ion 9 18")
             = Ok (self', "ion 9 18")) by (eexists; reflexivity).
  destruct H as (self' & H). exists self'. split; [exact H | ].
  exact (proj2 (setter_hook_frame self _ self' _ H)).
Defined.

(** X4: a particle that does not start with 'ion', or that contains no
    space, is returned as it is and the source is not touched. *)
Theorem setter_hook_unchanged :
  forall (self : Source) (p : string),
    startswith p "ion" = false \/ all_chars not_space p = true ->
    _setter_hook_generic_source_particle self (PyStr p) = Ok (self, p).
Proof.
  intros self p H. unfold _setter_hook_generic_source_particle.
  destruct (startswith p "ion") eqn:E; [ | reflexivity].
  destruct H as [H | H]; [discriminate H | ].
  rewrite (split_no_sep p H). reflexivity.
Qed.

Lemma setter_hook_unchanged_witness :
  _setter_hook_generic_source_particle (Sample.source 1000 0)
    (PyStr "ionized")
  = Ok (Sample.source 1000 0, "ionized").
Proof.
  apply setter_hook_unchanged. right. reflexivity.
Defined.

(** X5: after 'ion ', an end of string or a second space makes the first
    word empty, and the hook raises [ValueError]. *)
Theorem setter_hook_empty_word :
  forall (self : Source) (rest : string),
    rest = "" \/ (exists r, rest = String " "%char r) ->
    _setter_hook_generic_source_particle self (PyStr ("ion " ++ rest))
    = Raised ValueError.
Proof.
  intros self rest H. unfold _setter_hook_generic_source_particle.
  change (startswith ("ion " ++ rest) "ion") with true. cbn [negb].
  assert (W : exists ws, split " "%char ("ion " ++ rest) = "ion" :: "" :: ws).
  { destruct H as [-> | (r & ->)].
    - exists []. reflexivity.
    - exists (split " "%char r). cbn.
      destruct (split " "%char r) eqn:E; [ | reflexivity].
      exfalso. exact (split_not_nil _ _ E). }
  destruct W as (ws & ->). reflexivity.
Qed.

Lemma setter_hook_empty_word_witness :
  _setter_hook_generic_source_particle (Sample.source 1000 0)
    (PyStr "ion  9 18")
  = Raised ValueError.
Proof.
  apply (setter_hook_empty_word (Sample.source 1000 0) " 9 18").
  right. exists "9 18". reflexivity.
Defined.

(** X6: the end of the constructor stores the words of 'ion Z A E' as
    strings, whatever the ion held before, integers stored by the setter
    hook included. *)
Theorem init_ion_stores_words :
  forall (self : Source) (z a e : nat),
    ion (init_ion (set_particle (ion_particle3 z a e) self))
    = Ion.mk (PyStr (decimal z)) (PyStr (decimal a)) (PyStr (decimal e)).
Proof.
  intros self z a e. unfold init_ion.
  cbn [particle set_particle].
  change (startswith (ion_particle3 z a e) "ion") with true.
  rewrite split_ion_particle3. reflexivity.
Qed.

(** ** check_ui_activity *)

(** X7: when [check_ui_activity] succeeds, [n] and [activity] are neither
    both strictly positive nor both zero, whatever their signs were, and
    nothing but [n] and [activity] has changed in [ui]. *)
Theorem check_ui_activity_exclusive :
  forall (self ui ui' : Source),
    check_ui_activity self ui = Ok ui' ->
    ~ (0 < n ui' /\ 0 < activity ui')
    /\ ~ (n ui' == 0 /\ activity ui' == 0)
    /\ ui' = set_activity (activity ui') (set_n (n ui') ui).
Proof.
  intros self ui ui' H. change (resolve_n_activity ui = Ok ui') in H.
  pose proof (resolve_n_activity_cases ui) as C. rewrite H in C.
  destruct C as (Hboth & Hnone & Hs).
  destruct ui.
  destruct Hs as [[Hpos ->] | [(Hle & Hpos & ->) | (Hle & Hle' & ->)]];
    cbn in *.
  - repeat split.
    + intros [Hn _]. exact (Qlt_irrefl _ Hn).
    + intros [_ Ha]. rewrite Ha in Hpos. exact (Qlt_irrefl _ Hpos).
  - repeat split.
    + intros [_ Ha]. exact (Qlt_irrefl _ Ha).
    + intros [Hn _]. rewrite Hn in Hpos. exact (Qlt_irrefl _ Hpos).
  - repeat split; assumption.
Qed.

Lemma check_ui_activity_exclusive_witness :
  let ui := Sample.source (-3) 1000 in
  exists ui', check_ui_activity ui ui = Ok ui'
              /\ ~ (0 < n ui' /\ 0 < activity ui')
              /\ ~ (n ui' == 0 /\ activity ui' == 0).
Proof.
  intros ui.
  assert (H : exists ui', check_ui_activity ui ui = Ok ui')
    by (eexists; reflexivity).
  destruct H as (ui' & H). exists ui'. split; [exact H | ].
  destruct (check_ui_activity_exclusive ui ui ui' H) as (H1 & H2 & _).
  split; assumption.
Defined.

(** X8: [check_ui_activity] is idempotent: on the [ui] that a successful
    call has produced, a second call succeeds and changes nothing. *)
Theorem check_ui_activity_idempotent :
  forall (self ui ui' : Source),
    check_ui_activity self ui = Ok ui' ->
    check_ui_activity self ui' = Ok ui'.
Proof.
  intros self ui ui' H. change (resolve_n_activity ui = Ok ui') in H.
  change (resolve_n_activity ui' = Ok ui').
  pose proof (resolve_n_activity_cases ui) as C. rewrite H in C.
  destruct C as (Hboth & Hnone & Hs).
  pose proof (resolve_n_activity_cases ui') as C'.
  destruct Hs as [[Hpos ->] | [(Hle & Hpos & ->) | (Hle & Hle' & ->)]].
  - destruct (resolve_n_activity (set_n 0 ui)) as [s2 | m | e];
      cbn in C'.
    + destruct C' as (_ & _ & [[_ ->] | [(Hc & _) | (_ & _ & ->)]]);
        try reflexivity.
      exfalso. exact (Qlt_not_le _ _ Hpos Hc).
    + exfalso. destruct C' as [(Hc & _) | (_ & Hc & _)].
      * exact (Qlt_irrefl _ Hc).
      * rewrite Hc in Hpos. exact (Qlt_irrefl _ Hpos).
    + contradiction.
  - destruct (resolve_n_activity (set_activity 0 ui)) as [s2 | m | e];
      cbn in C'.
    + destruct C' as (_ & _ & [[Hc _] | [(_ & _ & ->) | (_ & _ & ->)]]);
        try reflexivity.
      exfalso. exact (Qlt_irrefl _ Hc).
    + exfalso. destruct C' as [(_ & Hc & _) | (Hc & _)].
      * exact (Qlt_irrefl _ Hc).
      * rewrite Hc in Hpos. exact (Qlt_irrefl _ Hpos).
    + contradiction.
  - exact H.
Qed.

Lemma check_ui_activity_idempotent_witness :
  let ui := Sample.source 1000 0 in
  exists ui', check_ui_activity ui ui = Ok ui'
              /\ check_ui_activity ui ui' = Ok ui'.
Proof.
  intros ui.
  assert (H : exists ui', check_ui_activity ui ui = Ok ui')
    by (eexists; reflexivity).
  destruct H as (ui' & H). exists ui'. split; [exact H | ].
  exact (check_ui_activity_idempotent ui ui ui' H).
Defined.

(** ** More on the time activity curve *)

Section UserValues.

Variable imp : Imports.

Local Opaque str_in.

Lemma initialize_energy_tweak (x : Q) (t : option Q) (s : Source) :
  initialize_energy imp (set_start_time t (set_activity x s))
  = (s1 <- initialize_energy imp s ;;
     Ok (set_start_time t (set_activity x s1))).
Proof.
  destruct s.
  unfold initialize_energy, check_boxes, force_back_to_back,
    check_energy_type, check_spectrum_type, beta_plus_spectrum, energy_box.
  cbn.
  repeat (break_match; cbn in *; try discriminate; try reflexivity).
Qed.

End UserValues.

(** X9: with a time activity curve of equal, non-zero lengths, the
    [activity] and [start_time] the user had set play no part: [initialize]
    gives the same outcome whatever they were. *)
Theorem tac_overrides_user_values :
  forall (imp : Imports) (s : Source) (rti : RunTimingIntervals)
         (t0 a0 : Q) (ts acts : list Q) (x : Q) (t : option Q),
    tac_times s = Some (t0 :: ts) -> tac_activities s = Some (a0 :: acts) ->
    List.length ts = List.length acts ->
    initialize imp (set_start_time t (set_activity x s)) rti
    = initialize imp s rti.
Proof.
  intros imp s rti t0 a0 ts acts x t Ht Ha Hlen.
  unfold initialize. rewrite initialize_energy_tweak.
  destruct (initialize_energy imp s) as [s1 | m | e] eqn:E; cbn [bind];
    try reflexivity.
  destruct (initialize_energy_tac imp s s1 E) as (Ht1 & Ha1 & _).
  rewrite Ht in Ht1. rewrite Ha in Ha1.
  rewrite (update_tac_activity_overwrite s1 t0 a0 ts acts Ht1 Ha1 Hlen).
  rewrite (update_tac_activity_overwrite
             (set_start_time t (set_activity x s1)) t0 a0 ts acts
             Ht1 Ha1 Hlen).
  reflexivity.
Qed.

Lemma tac_overrides_user_values_witness :
  let s := Sample.with_tac (Some [0; 1; 2]) (Some [10; 5; 2])
             (Sample.source 0 3) in
  initialize Sample.imports (set_start_time (Some 7) (set_activity 99 s)) []
  = initialize Sample.imports s [].
Proof.
  intros s.
  apply (tac_overrides_user_values Sample.imports s [] 0 10 [1; 2] [5; 2]);
    reflexivity.
Defined.

(** X10: a successful [update_tac_activity] is stable: run again on the
    source it has produced, it succeeds and changes nothing. *)
Theorem update_tac_activity_idempotent :
  forall (s s' : Source),
    update_tac_activity s = Ok s' -> update_tac_activity s' = Ok s'.
Proof.
  intros s s' H. pose proof (update_tac_activity_Ok s s' H) as C.
  destruct C as [(_ & _ & ->) | (t0 & ts & a0 & acts & Ht & Ha & Hlen & ->)].
  - exact H.
  - rewrite (update_tac_activity_overwrite _ t0 a0 ts acts);
      [reflexivity | exact Ht | exact Ha | exact Hlen].
Qed.

Lemma update_tac_activity_idempotent_witness :
  let s := Sample.with_tac (Some [4; 5]) (Some [10; 5]) (Sample.source 0 3) in
  exists s', update_tac_activity s = Ok s'
             /\ update_tac_activity s' = Ok s'.
Proof.
  intros s.
  assert (H : exists s', update_tac_activity s = Ok s')
    by (eexists; reflexivity).
  destruct H as (s' & H). exists s'. split; [exact H | ].
  exact (update_tac_activity_idempotent s s' H).
Defined.

(** ** The first checks of initialize *)

(** X11: the three [Box] checks come before everything else and in the
    order position, direction, energy: the first attribute that is not a
    [Box] decides the fatal error, whatever the rest of the source is. *)
Theorem box_checks_first :
  forall (imp : Imports) (s : Source) (rti : RunTimingIntervals),
    (forall v, position s = NotBox v ->
       initialize imp s rti = Fatal PositionNotBox)
    /\ (forall p v, position s = IsBox p -> direction s = NotBox v ->
          initialize imp s rti = Fatal DirectionNotBox)
    /\ (forall p d v, position s = IsBox p -> direction s = IsBox d ->
          energy s = NotBox v ->
          initialize imp s rti = Fatal EnergyNotBox).
Proof.
  intros imp s rti. unfold initialize, initialize_energy, check_boxes.
  repeat split.
  - intros v ->. reflexivity.
  - intros p v -> ->. reflexivity.
  - intros p d v -> -> ->. reflexivity.
Qed.

Lemma box_checks_first_witness :
  initialize Sample.imports
    (set_energy (NotBox (PyStr "mono")) (Sample.source 1000 0)) []
  = Fatal EnergyNotBox.
Proof.
  destruct (box_checks_first Sample.imports
              (set_energy (NotBox (PyStr "mono")) (Sample.source 1000 0)) [])
    as (_ & _ & H).
  exact (H _ _ _ eq_refl eq_refl eq_refl).
Defined.

Section EnergyPart.

Variable imp : Imports.

Local Opaque str_in.

(** What the energy part of [initialize] does to the energy when it
    succeeds. *)
Lemma initialize_energy_result (s s1 : Source) :
  initialize_energy imp s = Ok s1 ->
  exists e e1 d,
    energy s = IsBox e /\ energy s1 = IsBox e1 /\ direction s = IsBox d
    /\ Energy.histogram_weight e1 = Energy.histogram_weight e
    /\ Energy.histogram_energy e1 = Energy.histogram_energy e
    /\ (particle s = "back_to_back" -> Energy.type e1 = "mono")
    /\ (particle s <> "back_to_back" -> Energy.type e1 = Energy.type e).
Proof.
  unfold initialize_energy, check_boxes, force_back_to_back,
    check_energy_type, check_spectrum_type, beta_plus_spectrum, energy_box.
  intros H.
  destruct (position s); destruct (direction s) as [d | ];
    destruct (energy s) as [e | ] eqn:Ee; cbn in H; try discriminate.
  destruct (String.eqb_spec (particle s) "back_to_back") as [Hp | Hp];
    cbn in H; rewrite ?Ee in H; cbn in H;
    repeat (break_match; cbn in *; try discriminate);
    injection H as <-; cbn;
    repeat match goal with
           | E : Ok _ = Ok _ |- _ => injection E as <-
           | E : IsBox _ = IsBox _ |- _ => injection E as E; subst
           end;
    (eexists; eexists; eexists;
     repeat split; try reflexivity; intros; congruence).
Qed.

(** The energy part succeeds as soon as the attributes are [Box]es, the
    energy type is known and the spectrum type, if any, is valid. *)
Lemma initialize_energy_succeeds (s : Source) (e : Energy.t) :
  check_boxes s = Ok s -> particle s <> "back_to_back" ->
  energy s = IsBox e ->
  str_in (Energy.type e) (energy_types imp) = true ->
  (forall st, Energy.spectrum_type e = Some st ->
              str_in st valid_spectrum_types = true) ->
  exists s1, initialize_energy imp s = Ok s1.
Proof.
  intros Hbox Hp He Hty Hst.
  unfold initialize_energy. rewrite Hbox. cbn [bind].
  unfold force_back_to_back. apply String.eqb_neq in Hp. rewrite Hp.
  cbn [bind]. unfold check_energy_type, energy_box. rewrite He.
  cbn [bind]. rewrite Hty. cbn [negb bind].
  unfold check_spectrum_type, energy_box. rewrite He. cbn [bind].
  destruct (Energy.spectrum_type e) as [st | ] eqn:Es.
  - rewrite (Hst st eq_refl). cbn [negb bind].
    unfold beta_plus_spectrum, energy_box. rewrite He.
    repeat (break_match; cbn [bind]); eexists; reflexivity.
  - cbn [bind]. unfold beta_plus_spectrum, energy_box. rewrite He.
    repeat (break_match; cbn [bind]); eexists; reflexivity.
Qed.

End EnergyPart.

(** ** The histogram check *)

Lemma histogram_check_reached
    (imp : Imports) (s : Source) (e : Energy.t) :
  check_boxes s = Ok s -> particle s <> "back_to_back" ->
  energy s = IsBox e -> Energy.type e = "histogram" ->
  (forall st, Energy.spectrum_type e = Some st ->
              str_in st valid_spectrum_types = true) ->
  tac_times s = None -> tac_activities s = None ->
  exists s1 e1,
    initialize_energy imp s = Ok s1 /\ update_tac_activity s1 = Ok s1
    /\ energy s1 = IsBox e1 /\ Energy.type e1 = "histogram"
    /\ Energy.histogram_weight e1 = Energy.histogram_weight e
    /\ Energy.histogram_energy e1 = Energy.histogram_energy e
    /\ name s1 = name s.
Proof.
  intros Hbox Hp He Hty Hst Ht Ha.
  destruct (initialize_energy_succeeds imp s e Hbox Hp He) as (s1 & H1).
  - rewrite Hty. reflexivity.
  - exact Hst.
  - destruct (initialize_energy_result imp s s1 H1)
      as (e' & e1 & d & He' & He1 & _ & Hw & Hh & _ & Hsame).
    rewrite He in He'. injection He' as <-.
    destruct (initialize_energy_tac imp s s1 H1) as (Ht1 & Ha1 & Hn1).
    exists s1, e1. repeat split; try assumption.
    + unfold update_tac_activity. rewrite Ht1, Ha1, Ht, Ha. reflexivity.
    + rewrite (Hsame Hp). exact Hty.
Qed.

(** X12: a source with [energy.type == "histogram"] whose
    [histogram_weight] and [histogram_energy] differ in length fails
    fatally in [initialize], once the checks on the energy have passed and
    no time activity curve is set. *)
Theorem histogram_length_mismatch :
  forall (imp : Imports) (s : Source) (rti : RunTimingIntervals)
         (e : Energy.t) (w h : list Q),
    check_boxes s = Ok s -> particle s <> "back_to_back" ->
    energy s = IsBox e -> Energy.type e = "histogram" ->
    (forall st, Energy.spectrum_type e = Some st ->
                str_in st valid_spectrum_types = true) ->
    tac_times s = None -> tac_activities s = None ->
    Energy.histogram_weight e = Some w ->
    Energy.histogram_energy e = Some h ->
    List.length w <> List.length h ->
    initialize imp s rti = Fatal (HistogramLengthMismatch (name s)).
Proof.
  intros imp s rti e w h Hbox Hp He Hty Hst Ht Ha Hw Hh Hlen.
  destruct (histogram_check_reached imp s e Hbox Hp He Hty Hst Ht Ha)
    as (s1 & e1 & H1 & H2 & He1 & Hty1 & Hw1 & Hh1 & Hn1).
  unfold initialize. rewrite H1. cbn [bind]. rewrite H2. cbn [bind].
  unfold initialize_direction_and_base, check_histogram, energy_box.
  rewrite He1. cbn [bind]. rewrite Hty1, Hw1, Hh1, Hw, Hh.
  cbn [String.eqb Ascii.eqb Bool.eqb key bind].
  apply Nat.eqb_neq in Hlen. rewrite Hlen, Hn1. reflexivity.
Qed.

Lemma histogram_length_mismatch_witness :
  let e := Energy.mk "histogram" 0 0 false None None None
             (Some [1; 2; 3]) (Some [10; 20]) in
  initialize Sample.imports (set_energy (IsBox e) (Sample.source 1000 0)) []
  = Fatal (HistogramLengthMismatch "src").
Proof.
  intros e.
  apply (histogram_length_mismatch Sample.imports
           (set_energy (IsBox e) (Sample.source 1000 0)) [] e
           [1; 2; 3] [10; 20]); try reflexivity.
  - discriminate.
  - intros st H. discriminate H.
  - discriminate.
Defined.

(** X13: with [energy.type == "histogram"] and one of [histogram_weight],
    [histogram_energy] never set, [initialize] does not reach a fatal
    message: reading the missing key raises [AttributeError]. *)
Theorem histogram_missing_key :
  forall (imp : Imports) (s : Source) (rti : RunTimingIntervals)
         (e : Energy.t),
    check_boxes s = Ok s -> particle s <> "back_to_back" ->
    energy s = IsBox e -> Energy.type e = "histogram" ->
    (forall st, Energy.spectrum_type e = Some st ->
                str_in st valid_spectrum_types = true) ->
    tac_times s = None -> tac_activities s = None ->
    Energy.histogram_weight e = None \/ Energy.histogram_energy e = None ->
    initialize imp s rti = Raised AttributeError.
Proof.
  intros imp s rti e Hbox Hp He Hty Hst Ht Ha Hmiss.
  destruct (histogram_check_reached imp s e Hbox Hp He Hty Hst Ht Ha)
    as (s1 & e1 & H1 & H2 & He1 & Hty1 & Hw1 & Hh1 & Hn1).
  unfold initialize. rewrite H1. cbn [bind]. rewrite H2. cbn [bind].
  unfold initialize_direction_and_base, check_histogram, energy_box.
  rewrite He1. cbn [bind]. rewrite Hty1, Hw1, Hh1.
  cbn [String.eqb Ascii.eqb Bool.eqb].
  destruct Hmiss as [-> | ->].
  - reflexivity.
  - destruct (Energy.histogram_weight e); reflexivity.
Qed.

Lemma histogram_missing_key_witness :
  initialize Sample.imports
    (Sample.with_energy_type "histogram" (Sample.source 1000 0)) []
  = Raised AttributeError.
Proof.
  apply (histogram_missing_key Sample.imports
           (Sample.with_energy_type "histogram" (Sample.source 1000 0)) []
           (Energy.set_type "histogram" Energy.default)); try reflexivity.
  - discriminate.
  - intros st H. discriminate H.
  - left. reflexivity.
Defined.

(** ** Listed radionuclides *)

(** X14: for a positron source whose [energy.type] is any name of
    [all_beta_plus_radionuclides], the energy part of [initialize] cannot
    fail once the attributes are [Box]es and the spectrum type, if set, is
    valid: the name is an accepted energy type, and the table is read and
    handed over with [energy.is_cdf] set. *)
Theorem listed_radionuclide_accepted :
  forall (imp : Imports) (s : Source) (e : Energy.t),
    check_boxes s = Ok s -> particle s = "e+" -> energy s = IsBox e ->
    In (Energy.type e) (all_beta_plus_radionuclides imp) ->
    (forall st, Energy.spectrum_type e = Some st ->
                str_in st valid_spectrum_types = true) ->
    exists s1,
      initialize_energy imp s = Ok s1
      /\ energy s1 = IsBox (Energy.set_is_cdf true e)
      /\ g4_energy_cdf s1
         = Some (map (fun row => fst row / 1000)
                   (read_beta_plus_spectra imp (Energy.type e)))
      /\ g4_probability_cdf s1 <> None.
Proof.
  intros imp s e Hbox Hp He Hin Hst.
  assert (Hl : str_in (Energy.type e) (all_beta_plus_radionuclides imp)
               = true) by (apply str_in_In; exact Hin).
  assert (Hty : str_in (Energy.type e) (energy_types imp) = true).
  { apply str_in_In. unfold energy_types. apply in_or_app. right. exact Hin. }
  unfold initialize_energy. rewrite Hbox. cbn [bind].
  unfold force_back_to_back. rewrite Hp.
  cbn [String.eqb Ascii.eqb Bool.eqb bind].
  unfold check_energy_type, energy_box. rewrite He. cbn [bind].
  rewrite Hty. cbn [negb bind].
  assert (Hs : check_spectrum_type s = Ok s).
  { unfold check_spectrum_type, energy_box. rewrite He. cbn [bind].
    destruct (Energy.spectrum_type e) as [st | ]; [ | reflexivity].
    rewrite (Hst st eq_refl). reflexivity. }
  rewrite Hs. cbn [bind].
  unfold beta_plus_spectrum, energy_box. rewrite Hp, He.
  cbn [String.eqb Ascii.eqb Bool.eqb bind]. rewrite Hl.
  destruct (compute_cdf_and_total_yield imp _ _) as [cdf total].
  eexists. split; [reflexivity | ]. cbn.
  repeat split. discriminate.
Qed.

Lemma listed_radionuclide_accepted_witness :
  let s := set_particle "e+"
             (Sample.with_energy_type "O15" (Sample.source 0 1000)) in
  exists s1, initialize_energy Sample.imports s = Ok s1
             /\ energy s1
                = IsBox (Energy.set_is_cdf true
                           (Energy.set_type "O15" Energy.default)).
Proof.
  intros s.
  destruct (listed_radionuclide_accepted Sample.imports s
              (Energy.set_type "O15" Energy.default))
    as (s1 & H1 & H2 & _); try reflexivity.
  - cbn. tauto.
  - intros st H. discriminate H.
  - exists s1. split; assumption.
Defined.

(** ** The exceptions of the checks *)

Lemma update_tac_activity_Raised (s : Source) (ex : PyExn) :
  update_tac_activity s = Raised ex ->
  (ex = TypeError
   /\ ((tac_times s = None /\ tac_activities s <> None)
       \/ (tac_times s <> None /\ tac_activities s = None)))
  \/ (ex = IndexError /\ tac_times s = Some [] /\ tac_activities s = Some []).
Proof.
  unfold update_tac_activity. intros H.
  destruct (tac_times s) as [[ | t0 ts] | ];
    destruct (tac_activities s) as [[ | a0 acts] | ];
    cbn in H; try discriminate H;
    try (destruct (Nat.eqb (List.length ts) (List.length acts));
         discriminate H);
    injection H as <-;
    first [ right; solve [auto]
          | left; split; [reflexivity | ];
            first [ left; split; [reflexivity | discriminate]
                  | right; split; [discriminate | reflexivity] ] ].
Qed.

Lemma check_histogram_Raised (s : Source) (e : Energy.t) (ex : PyExn) :
  energy s = IsBox e -> check_histogram s = Raised ex ->
  ex = AttributeError /\ Energy.type e = "histogram"
  /\ (Energy.histogram_weight e = None \/ Energy.histogram_energy e = None).
Proof.
  unfold check_histogram, energy_box. intros He H. rewrite He in H.
  cbn [bind] in H.
  destruct (String.eqb_spec (Energy.type e) "histogram") as [Hty | Hty];
    [ | discriminate H].
  destruct (Energy.histogram_weight e) as [w | ];
    destruct (Energy.histogram_energy e) as [h | ]; cbn in H.
  - destruct (negb _); discriminate H.
  - injection H as <-. auto.
  - injection H as <-. auto.
  - injection H as <-. auto.
Qed.

Lemma check_direction_type_not_raised
    (s : Source) (d : Direction.t) (ex : PyExn) :
  direction s = IsBox d -> check_direction_type s <> Raised ex.
Proof.
  unfold check_direction_type, direction_box. intros Hd H. rewrite Hd in H.
  cbn [bind] in H. destruct (negb _); discriminate H.
Qed.

(** On sources as modelled here (every [Box] with its default keys, the
    curve and the histogram vectors lists or absent), the checks of
    [initialize] that precede [SourceBase.initialize] let an exception
    escape in three situations: [TypeError] when exactly one of the two
    curve lists is [None], [IndexError] when both are empty lists, and
    [AttributeError] when the energy type is "histogram" (on a source that
    is not back to back) and a histogram key is missing. *)
Theorem initialize_checks_exceptions :
  forall (imp : Imports) (s : Source) (ex : PyExn),
    initialize_checks imp s = Raised ex ->
    (ex = TypeError
     /\ ((tac_times s = None /\ tac_activities s <> None)
         \/ (tac_times s <> None /\ tac_activities s = None)))
    \/ (ex = IndexError
        /\ tac_times s = Some [] /\ tac_activities s = Some [])
    \/ (ex = AttributeError /\ particle s <> "back_to_back"
        /\ exists e, energy s = IsBox e /\ Energy.type e = "histogram"
                     /\ (Energy.histogram_weight e = None
                         \/ Energy.histogram_energy e = None)).
Proof.
  intros imp s ex H. unfold initialize_checks in H.
  destruct (initialize_energy imp s) as [s1 | m | e0] eqn:E1;
    cbn [bind] in H; try discriminate H;
    [ | exfalso; exact (initialize_energy_not_raised imp s e0 E1)].
  destruct (initialize_energy_tac imp s s1 E1) as (Ht1 & Ha1 & _).
  destruct (initialize_energy_result imp s s1 E1)
    as (e & e1 & d & He & He1 & Hd & Hw & Hh & Hb2b & Hsame).
  assert (Hd1 : direction s1 = IsBox d).
  { apply initialize_energy_frame in E1. unfold outside_energy in E1.
    inversion E1. congruence. }
  destruct (update_tac_activity s1) as [s2 | m | e0] eqn:E2;
    cbn [bind] in H; try discriminate H.
  - destruct (update_tac_activity_keeps s1 s2 E2)
      as (He2 & _ & _ & _ & _ & Hd2).
    rewrite He1 in He2. rewrite Hd1 in Hd2.
    destruct (check_histogram s2) as [s3 | m | e0] eqn:E3;
      cbn [bind] in H; try discriminate H.
    + apply check_histogram_Ok in E3. subst s3.
      exfalso. exact (check_direction_type_not_raised s2 d ex Hd2 H).
    + injection H as ->.
      destruct (check_histogram_Raised s2 e1 ex He2 E3) as (-> & Hty & Hk).
      right; right. split; [reflexivity | ].
      assert (Hp : particle s <> "back_to_back").
      { intros Hp. rewrite (Hb2b Hp) in Hty. discriminate Hty. }
      split; [exact Hp | ]. exists e.
      rewrite <- (Hsame Hp), <- Hw, <- Hh. auto.
  - injection H as ->.
    destruct (update_tac_activity_Raised s1 ex E2) as [C | C];
      rewrite Ht1, Ha1 in C; auto.
Qed.

Lemma initialize_checks_exceptions_witness :
  let s := Sample.with_tac (Some []) (Some []) (Sample.source 0 3) in
  initialize_checks Sample.imports s = Raised IndexError
  /\ tac_times s = Some [] /\ tac_activities s = Some [].
Proof.
  intros s. split; [reflexivity | ].
  destruct (initialize_checks_exceptions Sample.imports s IndexError eq_refl)
    as [(E & _) | [(_ & H) | (E & _)]].
  - discriminate E.
  - exact H.
  - discriminate E.
Defined.

(** ** The default user info *)

(** X16: the default position, direction and energy pass every check of
    [initialize] that precedes [SourceBase.initialize], for every particle
    and whatever the imported list of radionuclides is; nothing but the
    energy and the CDF vectors can have changed. *)
Theorem default_user_info_passes_checks :
  forall (imp : Imports) (name particle : string) (ion : Ion.t)
         (life_time n activity half_life : Q) (start_time : option Q),
    let s := default_user_info name particle ion life_time n activity
               half_life start_time in
    exists s', initialize_checks imp s = Ok s'
               /\ outside_energy s' = outside_energy s.
Proof.
  intros imp name particle ion life_time n activity half_life start_time s.
  unfold initialize_checks, initialize_energy, force_back_to_back,
    check_energy_type, check_spectrum_type, beta_plus_spectrum, energy_box.
  subst s. cbn.
  destruct (String.eqb particle "back_to_back"); cbn;
    destruct (String.eqb particle "e+"); cbn;
    try (destruct (str_in "mono" (all_beta_plus_radionuclides imp)); cbn);
    try (destruct (compute_cdf_and_total_yield imp _ _); cbn);
    eexists; split; reflexivity.
Qed.

(** ** The template source *)

(** X17: a template source whose user info is still what
    [set_default_user_info] made it fails fatally in [initialize], on
    [float_value]; and [initialize] succeeds only when both [float_value]
    and [vector_value] are set, with the outcome of the inherited
    [initialize]. *)
Theorem template_initialize_requires_values :
  forall (base_defaults : Template.UserInfo -> Template.UserInfo)
         (base_initialize :
            Template.UserInfo -> RunTimingIntervals
            -> Template.outcome Template.UserInfo)
         (ui : Template.UserInfo) (rti : RunTimingIntervals),
    Template.initialize base_initialize
      (Template.set_default_user_info base_defaults ui) rti
    = Template.Failed
        (Template.FloatValueMissing (Template.name (base_defaults ui)))
    /\ (forall r, Template.initialize base_initialize ui rti
                  = Template.Done r ->
          Template.float_value ui <> None
          /\ Template.vector_value ui <> None
          /\ base_initialize ui rti = Template.Done r).
Proof.
  intros base_defaults base_initialize ui rti. split; [reflexivity | ].
  intros r H. unfold Template.initialize in H.
  destruct (Template.float_value ui); [ | discriminate H].
  destruct (Template.vector_value ui); [ | discriminate H].
  repeat split; try discriminate. exact H.
Qed.

Lemma template_initialize_requires_values_witness :
  let ui := Template.mkUserInfo "tpl" (Some 1) (Some [0; 0; 1]) in
  Template.float_value ui <> None /\ Template.vector_value ui <> None.
Proof.
  intros ui.
  destruct (template_initialize_requires_values (fun u => u)
              (fun u _ => Template.Done u) ui []) as [_ H].
  destruct (H ui eq_refl) as (H1 & H2 & _). split; assumption.
Defined.

(** ** test075_2 *)

Section CompareFacts.

Variable F : Type.
Variable zero : F.
Variable np_sum : list (list (list F)) -> F.
Variable sub : F -> F -> F.
Variable np_abs : F -> F.
Variable div : F -> F -> F.
Variable ltb : F -> F -> bool.
Variable nonzero : F -> bool.

Lemma nth_error_on_slice_from
    {A : Type} (f : A -> A) (lo hi : nat) (l : list A) (i k : nat) :
  nth_error (Test075.on_slice_from i lo hi f l) k
  = option_map
      (fun x => if (lo <=? i + k)%nat && (i + k <? hi)%nat then f x else x)
      (nth_error l k).
Proof.
  revert i k. induction l as [ | x rest IH]; intros i k.
  - destruct k; reflexivity.
  - destruct k as [ | k]; cbn [Test075.on_slice_from nth_error option_map].
    + rewrite Nat.add_0_r. reflexivity.
    + rewrite IH. rewrite Nat.add_succ_r. reflexivity.
Qed.

Lemma nth_error_on_slice
    {A : Type} (f : A -> A) (lo hi : nat) (l : list A) (k : nat) :
  nth_error (Test075.on_slice lo hi f l) k
  = option_map
      (fun x => if (lo <=? k)%nat && (k <? hi)%nat then f x else x)
      (nth_error l k).
Proof. unfold Test075.on_slice. apply nth_error_on_slice_from. Qed.

Lemma on_slice_from_idempotent
    {A : Type} (f : A -> A) (lo hi : nat) (l : list A) (i : nat) :
  (forall x, f (f x) = f x) ->
  Test075.on_slice_from i lo hi f (Test075.on_slice_from i lo hi f l)
  = Test075.on_slice_from i lo hi f l.
Proof.
  intros Hf. revert i. induction l as [ | x rest IH]; intros i;
    cbn [Test075.on_slice_from]; [reflexivity | ].
  rewrite IH. destruct ((lo <=? i)%nat && (i <? hi)%nat);
    [rewrite Hf | ]; reflexivity.
Qed.

Lemma clear_field_idempotent (img : list (list (list F))) :
  Test075.clear_field F zero (Test075.clear_field F zero img)
  = Test075.clear_field F zero img.
Proof.
  unfold Test075.clear_field. rewrite map_map. apply map_ext.
  intros plane. unfold Test075.on_slice.
  apply on_slice_from_idempotent. intros row.
  apply on_slice_from_idempotent. reflexivity.
Qed.

(** X18: [img[:, 10:30, 10:30] = 0] keeps the shape of the array, puts zero
    at every voxel whose second and third indices are both in 10..29, and
    leaves every other voxel as it was. *)
Theorem clear_field_voxel :
  forall (img : list (list (list F))) (i j k : nat),
    Test075.voxel F (Test075.clear_field F zero img) i j k
    = option_map (fun v => if Test075.in_field j k then zero else v)
        (Test075.voxel F img i j k).
Proof.
  intros img i j k. unfold Test075.voxel, Test075.clear_field.
  rewrite nth_error_map.
  destruct (nth_error img i) as [plane | ]; cbn [option_map];
    [ | reflexivity].
  rewrite nth_error_on_slice.
  destruct (nth_error plane j) as [row | ]; cbn [option_map];
    [ | reflexivity].
  unfold Test075.in_field.
  destruct ((10 <=? j)%nat && (j <? 30)%nat); cbn [andb].
  - rewrite nth_error_on_slice. reflexivity.
  - destruct (nth_error row k); reflexivity.
Qed.

(** X19: [test075_2] leaves its two arrays in a state on which it is
    stable: called again on them, with the same tolerance, it returns the
    same verdict and leaves them as they are. *)
Theorem test075_2_stable :
  forall (img_arr_1 img_arr_2 : list (list (list F))) (tol : F),
    let run := Test075.test075_2 F zero np_sum sub np_abs div ltb nonzero in
    let '(verdict, arr_1, arr_2) := run img_arr_1 img_arr_2 tol in
    run arr_1 arr_2 tol = (verdict, arr_1, arr_2).
Proof.
  intros img_arr_1 img_arr_2 tol run. subst run.
  unfold Test075.test075_2.
  destruct (ltb _ tol && nonzero _) eqn:E;
    rewrite !clear_field_idempotent, E; reflexivity.
Qed.

End CompareFacts.

(** ** check_confine *)

(** X20: on a [Box] position [check_confine] never fails; it logs the
    advisory, and changes nothing else, exactly when [confine] is a
    non-empty name and [position.type] is "point"; with [confine] at [None]
    or empty, or with any other position type, [ui] is returned as it
    is. *)
Theorem check_confine_advisory :
  forall (self ui : Source) (p : Position.t),
    position ui = IsBox p ->
    ((exists v, Position.confine p = Some v /\ v <> "")
     /\ Position.type p = "point" ->
     check_confine self ui = Ok (warning (ConfineWithPoint (name ui)) ui))
    /\ (Position.confine p = None \/ Position.confine p = Some ""
        \/ Position.type p <> "point" ->
        check_confine self ui = Ok ui)
    /\ check_confine self ui = warn_confine ui.
Proof.
  intros self ui p Hp. unfold check_confine, position_box. rewrite Hp.
  cbn [bind]. repeat split.
  - intros [(v & Hc & Hv) Hty]. rewrite Hc, Hty.
    destruct v as [ | c rest]; [congruence | reflexivity].
  - intros [Hc | [Hc | Hty]].
    + rewrite Hc. reflexivity.
    + rewrite Hc. reflexivity.
    + apply String.eqb_neq in Hty. rewrite Hty.
      destruct (truthy (Position.confine p)); reflexivity.
  - unfold warn_confine, position_box. rewrite Hp. reflexivity.
Qed.

Lemma check_confine_advisory_witness :
  let ui := Sample.source 1000 0 in
  check_confine ui ui = Ok ui.
Proof.
  intros ui.
  destruct (check_confine_advisory ui ui Position.default eq_refl)
    as (_ & H & _).
  apply H. left. reflexivity.
Defined.
